(** * templates/python/main.py: the Flask health-check template

    A shallow embedding of [templates/python/main.py] and the properties of
    its two endpoints, its database probe and its start-up code.

    The program talks to four things outside itself: the process environment
    ([os.environ]), the PostgreSQL driver ([psycopg2]), two functions of the
    Python standard library ([int] on a string, [urllib.parse.urlparse]) and
    the clock.  The environment is a finite map from names to strings, a
    string being a sequence of characters.  The other three are gathered in
    a record [Platform]; every theorem about the program holds for every
    platform, and a concrete platform ([Reference.platform]) is used to run
    the program on concrete inputs.

    A computation yields the list of calls that left the process (to the
    driver, to the web server) and either a value or an exception, so that
    a handler that catches every exception is a theorem and not a type. *)

From Stdlib Require Import ZArith String Ascii List.
From stdpp Require Import base option strings gmap fin_maps.

Local Open Scope string_scope.
Local Open Scope Z_scope.

(** ** Python values and exceptions *)

(** The exceptions that can be raised inside the program.  [ImportError] is
    the only class with a handler of its own ([except ImportError]); the other
    two are caught by [except Exception]. *)
Inductive exn : Type :=
| ImportError (msg : string)     (* import psycopg2 *)
| ValueError (msg : string)      (* int(), urlparse(), parsed.port *)
| DriverError (msg : string).    (* psycopg2.connect *)

(** [str(e)] *)
Definition str_exn (e : exn) : string :=
  match e with
  | ImportError m | ValueError m | DriverError m => m
  end.

(** [os.environ.get(k, d)] where [d] is a string or an integer literal. *)
Inductive str_or_int : Type :=
| Str (s : string)
| Int (n : Z).

(** Keyword arguments of [psycopg2.connect]. *)
Record ConnArgs : Type := {
  host : string;
  port : Z;
  database : string;
  user : string;
  password : string
}.

(** What the program reads of [urlparse(database_url)].  Reading the [port]
    attribute raises [ValueError] on a port that is not a decimal number
    between 0 and 65535, so that field is a sum. *)
Record ParseResult : Type := {
  url_hostname : option string;
  url_port : option Z + string;
  url_path : string;
  url_username : option string;
  url_password : option string
}.

(** Calls that leave the process. *)
Inductive event : Type :=
| Connect (a : ConnArgs)          (* psycopg2.connect(...) *)
| Close                           (* conn.close() *)
| Listen (h : string) (p : Z).    (* app.run(host=h, port=p) *)

(** What [check_database] returns: [True] or a message. *)
Inductive probe_result : Type :=
| PTrue
| PStr (s : string).

(** ** The platform *)

Record Platform : Type := {
  (** [import psycopg2] succeeds *)
  psycopg2_available : bool;
  (** [psycopg2.connect]: [None] when a connection is returned,
      [Some m] when it raises an exception [e] with [str(e) = m] *)
  psycopg2_connect : ConnArgs -> option string;
  (** [int(s)] for a string [s]: the integer, or the message of the
      [ValueError] *)
  int_of_str : string -> Z + string;
  (** [urlparse(s)]: the parse, or the message of the [ValueError] *)
  urlparse : string -> ParseResult + string;
  (** [datetime.utcnow().isoformat()] *)
  utcnow_isoformat : string
}.

(** ** Computations: a trace of events and a value or an exception *)

Inductive outcome (A : Type) : Type :=
| Return (a : A)
| Raise (e : exn).
Arguments Return {A} a.
Arguments Raise {A} e.

Definition M (A : Type) : Type := (list event * outcome A)%type.

Definition ret {A} (a : A) : M A := ([], Return a).

Definition raise {A} (e : exn) : M A := ([], Raise e).

Definition emit (ev : event) : M unit := ([ev], Return tt).

Definition bind {A B} (m : M A) (k : A -> M B) : M B :=
  match m with
  | (t, Return a) => let '(t', r) := k a in ((t ++ t')%list, r)
  | (t, Raise e) => (t, Raise e)
  end.

(** [try: m except ...: h e] *)
Definition try_except {A} (m : M A) (h : exn -> M A) : M A :=
  match m with
  | (t, Return a) => (t, Return a)
  | (t, Raise e) => let '(t', r) := h e in ((t ++ t')%list, r)
  end.

Notation "'let*' x ':=' m 'in' k" := (bind m (fun x => k))
  (at level 10, x name, m at level 200, k at level 200, only parsing).

Definition trace {A} (m : M A) : list event := fst m.
Definition result {A} (m : M A) : outcome A := snd m.

(** ** Python operators at the types the program uses them *)

(** Truth value of [None] or a string. *)
Definition truthy (o : option string) : bool :=
  match o with
  | Some s => negb (String.eqb s "")
  | None => false
  end.

(** [a or b] where both are [None] or a string. *)
Definition py_or (a b : option string) : option string :=
  if truthy a then a else b.

(** [a or d] where [a] is [None] or a string and [d] a string. *)
Definition or_str (a : option string) (d : string) : string :=
  match a with
  | Some s => if String.eqb s "" then d else s
  | None => d
  end.

(** [os.environ.get(k, d)], [d] a string. *)
Definition environ_get (env : gmap string string) (k d : string) : string :=
  match env !! k with
  | Some v => v
  | None => d
  end.

(** [os.environ.get(k, d)], [d] a string or an integer. *)
Definition environ_get_any (env : gmap string string) (k : string)
    (d : str_or_int) : str_or_int :=
  match env !! k with
  | Some v => Str v
  | None => d
  end.

(** ** The program *)

Section Program.
Context (py : Platform).

(** [int(v)] *)
Definition int (v : str_or_int) : M Z :=
  match v with
  | Int n => ret n
  | Str s =>
      match int_of_str py s with
      | inl n => ret n
      | inr m => raise (ValueError m)
      end
  end.

(** [import psycopg2] *)
Definition import_psycopg2 : M unit :=
  if psycopg2_available py then ret tt
  else raise (ImportError "No module named 'psycopg2'").

(** [psycopg2.connect] *)
Definition connect (a : ConnArgs) : M unit :=
  let* _ := emit (Connect a) in
  match psycopg2_connect py a with
  | None => ret tt
  | Some m => raise (DriverError m)
  end.

(** [conn.close()] *)
Definition close (conn : unit) : M unit := emit Close.

(** [urlparse(url)] *)
Definition parse (url : string) : M ParseResult :=
  match urlparse py url with
  | inl p => ret p
  | inr m => raise (ValueError m)
  end.

(** [parsed.port] *)
Definition get_port (parsed : ParseResult) : M (option Z) :=
  match url_port parsed with
  | inl p => ret p
  | inr m => raise (ValueError m)
  end.

(** [parsed.port or int(os.environ.get('DATABASE_PORT', 5432))]: the
    right operand is evaluated only when the left one is [None] or [0]. *)
Definition port_or_env (env : gmap string string) (parsed : ParseResult) : M Z :=
  let* p := get_port parsed in
  match p with
  | Some n => if n =? 0 then int (environ_get_any env "DATABASE_PORT" (Int 5432))
              else ret n
  | None => int (environ_get_any env "DATABASE_PORT" (Int 5432))
  end.

(** [parsed.path[1:] if parsed.path else os.environ.get('DATABASE_NAME', 'postgres')] *)
Definition path_or_env (env : gmap string string) (parsed : ParseResult) : string :=
  match url_path parsed with
  | EmptyString => environ_get env "DATABASE_NAME" "postgres"
  | String _ rest => rest
  end.

(** The [if database_url:] branch of [check_database], lines 17-27. *)
Definition connect_url (env : gmap string string) (database_url : string) : M unit :=
  let* parsed := parse database_url in
  let h := or_str (url_hostname parsed) (environ_get env "DATABASE_HOST" "postgres") in
  let* p := port_or_env env parsed in
  let d := path_or_env env parsed in
  let u := or_str (url_username parsed) (environ_get env "DATABASE_USER" "pgadmin") in
  let pw := or_str (url_password parsed) (environ_get env "DATABASE_PASSWORD" "admin123") in
  connect {| host := h; port := p; database := d; user := u; password := pw |}.

(** The [else:] branch of [check_database], lines 29-36. *)
Definition connect_vars (env : gmap string string) : M unit :=
  let h := environ_get env "DATABASE_HOST" (environ_get env "DB_HOST" "postgres") in
  let* p := int (environ_get_any env "DATABASE_PORT" (environ_get_any env "DB_PORT" (Int 5432))) in
  let d := environ_get env "DATABASE_NAME" (environ_get env "DB_NAME" "postgres") in
  let u := environ_get env "DATABASE_USER" (environ_get env "DB_USER" "pgadmin") in
  let pw := environ_get env "DATABASE_PASSWORD" (environ_get env "DB_PASSWORD" "admin123") in
  connect {| host := h; port := p; database := d; user := u; password := pw |}.

(** The statement [conn = psycopg2.connect(...)] of whichever branch of
    [if database_url:] is taken, lines 16-36. *)
Definition open_connection (env : gmap string string)
    (database_url : option string) : M unit :=
  if truthy database_url then connect_url env (default "" database_url)
  else connect_vars env.

(** The body of the [try:] of [check_database], lines 13-39. *)
Definition check_database_body (env : gmap string string)
    (database_url : option string) : M probe_result :=
  let* _ := import_psycopg2 in
  let* conn := open_connection env database_url in
  let* _ := close conn in
  ret PTrue.

(** [check_database()] *)
Definition check_database (env : gmap string string) : M probe_result :=
  let database_url := env !! "DATABASE_URL" in
  try_except (check_database_body env database_url)
    (fun e => match e with
              | ImportError _ => ret (PStr "psycopg2 not installed")
              | _ => ret (PStr (str_exn e))
              end).

(** A response: the JSON object and the status code. *)
Definition response : Type := (gmap string string * Z)%type.

(** A view function reads [os.environ] and runs on the platform. *)
Definition view : Type := gmap string string -> M response.

(** [health()], the handler of [GET /health] *)
Definition health : view := fun env =>
  let health_status : gmap string string :=
    <["timestamp" := utcnow_isoformat py ++ "Z"]> {["status" := "ok"]} in
  let database_url := env !! "DATABASE_URL" in
  let database_host := py_or (env !! "DATABASE_HOST") (env !! "DB_HOST") in
  let database_name := py_or (env !! "DATABASE_NAME") (env !! "DB_NAME") in
  if truthy (py_or database_url (py_or database_host database_name)) then
    let* db_check := check_database env in
    match db_check with
    | PTrue =>
        let health_status := <["database" := "connected"]> health_status in
        ret (health_status, 200)
    | PStr s =>
        let health_status := <["database" := "error"]> health_status in
        let health_status := <["database_error" := s]> health_status in
        ret (health_status, 503)
    end
  else ret (health_status, 200).

(** [root()], the handler of [GET /] *)
Definition root : view := fun env =>
  ret (<["version" := "1.0.0"]> {["message" := "AI Fabrix Application"]}, 200).

(** The URL map built by the two [@app.route(..., methods=['GET'])]
    decorators: the view registered for a path, if any. *)
Definition app_route (path : string) : option view :=
  if String.eqb path "/health" then Some health
  else if String.eqb path "/" then Some root
  else None.

(** The module-level code that runs when the file is executed: line 6
    ([PORT = int(os.environ.get('PORT', 3000))]) and lines 78-79
    ([app.run(host='0.0.0.0', port=PORT, debug=False)]). *)
Definition main (env : gmap string string) : M unit :=
  let* PORT := int (environ_get_any env "PORT" (Int 3000)) in
  emit (Listen "0.0.0.0" PORT).

End Program.

(** ** A reference platform

    Executable models of the two standard-library functions, for ASCII
    inputs, used to run the program on concrete environments.  They follow
    CPython 3.12: [int] as in [PyLong_FromString] with base 10, [urlparse]
    as in [urllib.parse.urlsplit] and the attributes of [_NetlocResultMixinStr].
    Left out: the limit on the number of digits of [int], the validation of
    a bracketed host as an IP address (CPython raises ValueError unless the
    text between the brackets is an IPv6 or IPvFuture address; here any text
    is accepted), and [repr] escapes in messages (a string is quoted as it
    is). *)
Module Reference.

Local Open Scope nat_scope.

Definition code (c : ascii) : nat := nat_of_ascii c.

Definition is_space (c : ascii) : bool :=
  ((9 <=? code c) && (code c <=? 13)) || (code c =? 32).

Definition is_digit (c : ascii) : bool := (48 <=? code c) && (code c <=? 57).

Definition is_upper (c : ascii) : bool := (65 <=? code c) && (code c <=? 90).

Definition is_alpha (c : ascii) : bool :=
  is_upper c || ((97 <=? code c) && (code c <=? 122)).

Definition is_char (c d : ascii) : bool := Ascii.eqb c d.

Definition lower (c : ascii) : ascii :=
  if is_upper c then ascii_of_nat (code c + 32) else c.

Definition digit_val (c : ascii) : Z := Z.of_nat (code c - 48).

Fixpoint lstrip (p : ascii -> bool) (l : list ascii) : list ascii :=
  match l with
  | c :: r => if p c then lstrip p r else l
  | [] => []
  end.

Definition strip (p : ascii -> bool) (l : list ascii) : list ascii :=
  rev (lstrip p (rev (lstrip p l))).

(** [l.partition(c)]: the part before the first [c], and the part after it
    if there is one. *)
Fixpoint partition (p : ascii -> bool) (l : list ascii)
    : list ascii * option (list ascii) :=
  match l with
  | [] => ([], None)
  | c :: r =>
      if p c then ([], Some r)
      else let '(a, b) := partition p r in (c :: a, b)
  end.

(** [l.rpartition(c)] when [c] occurs in [l]: the parts before and after the
    last [c]. *)
Definition rpartition (p : ascii -> bool) (l : list ascii)
    : option (list ascii * list ascii) :=
  match partition p (rev l) with
  | (a, Some b) => Some (rev b, rev a)
  | (_, None) => None
  end.

(** The part before the first character satisfying [p], and the rest
    starting at that character. *)
Fixpoint break (p : ascii -> bool) (l : list ascii) : list ascii * list ascii :=
  match l with
  | [] => ([], [])
  | c :: r =>
      if p c then ([], l)
      else let '(a, b) := break p r in (c :: a, b)
  end.

Definition str (l : list ascii) : string := string_of_list_ascii l.

Definition repr (s : string) : string := ("'" ++ s ++ "'")%string.

(** Decimal digits with single underscores between digits. *)
Fixpoint digits (acc : Z) (after_digit : bool) (l : list ascii) : option Z :=
  match l with
  | [] => if after_digit then Some acc else None
  | c :: r =>
      if is_digit c then digits (10 * acc + digit_val c)%Z true r
      else if is_char c "_" && after_digit then digits acc false r
      else None
  end.

(** [int(s)] *)
Definition parse_int (s : string) : Z + string :=
  let body := strip is_space (list_ascii_of_string s) in
  let signed :=
    match body with
    | c :: r =>
        if is_char c "-" then Z.opp <$> digits 0%Z false r
        else if is_char c "+" then digits 0%Z false r
        else digits 0%Z false body
    | [] => None
    end in
  match signed with
  | Some n => inl n
  | None => inr ("invalid literal for int() with base 10: " ++ repr s)%string
  end.

(** [parsed.username] and [parsed.password] from the netloc. *)
Definition userinfo (netloc : list ascii) : option string * option string :=
  match rpartition (is_char "@") netloc with
  | Some (info, _) =>
      let '(u, pw) := partition (is_char ":") info in
      (Some (str u), str <$> pw)
  | None => (None, None)
  end.

(** [_hostinfo]: the host name and the port text of the netloc. *)
Definition hostinfo (netloc : list ascii) : list ascii * list ascii :=
  let hostinfo :=
    match rpartition (is_char "@") netloc with
    | Some (_, h) => h
    | None => netloc
    end in
  match partition (is_char "[") hostinfo with
  | (_, Some bracketed) =>
      let '(hostname, rest) := partition (is_char "]") bracketed in
      let '(_, p) := partition (is_char ":") (default [] rest) in
      (hostname, default [] p)
  | (_, None) =>
      let '(hostname, p) := partition (is_char ":") hostinfo in
      (hostname, default [] p)
  end.

(** [parsed.hostname] *)
Definition hostname (netloc : list ascii) : option string :=
  match fst (hostinfo netloc) with
  | [] => None
  | h =>
      let '(name, zone) := partition (is_char "%") h in
      Some (str (map lower name ++
                 match zone with Some z => "%"%char :: z | None => [] end))
  end.

(** [parsed.port] *)
Definition port_of (netloc : list ascii) : option Z + string :=
  match snd (hostinfo netloc) with
  | [] => inl None
  | p =>
      if forallb is_digit p then
        let n := fold_left (fun acc c => 10 * acc + digit_val c)%Z p 0%Z in
        if (n <=? 65535)%Z then inl (Some n)
        else inr "Port out of range 0-65535"
      else inr ("Port could not be cast to integer value as " ++ repr (str p))%string
  end.

Definition is_scheme_char (c : ascii) : bool :=
  is_alpha c || is_digit c || is_char c "+" || is_char c "-" || is_char c ".".

Definition uses_params : list string :=
  [""; "ftp"; "hdl"; "prospero"; "http"; "imap"; "https"; "shttp"; "rtsp";
   "rtspu"; "sip"; "sips"; "mms"; "sftp"; "tel"]%string.

(** The scheme, lower-cased, and what follows its colon. *)
Definition split_scheme (url : list ascii) : string * list ascii :=
  match url with
  | c :: _ =>
      if is_alpha c then
        match partition (is_char ":") url with
        | (s, Some rest) =>
            if forallb is_scheme_char s then (str (map lower s), rest)
            else (""%string, url)
        | (_, None) => (""%string, url)
        end
      else (""%string, url)
  | [] => (""%string, url)
  end.

(** [_splitparams]: the path without the parameters of its last segment. *)
Definition strip_params (path : list ascii) : list ascii :=
  match rpartition (is_char "/") path with
  | Some (dir, last) =>
      dir ++ "/"%char :: fst (partition (is_char ";") last)
  | None => fst (partition (is_char ";") path)
  end.

(** [urlparse(s)] *)
Definition parse_url (s : string) : ParseResult + string :=
  let url := lstrip (fun c => code c <=? 32) (list_ascii_of_string s) in
  let url := filter (fun c => negb (is_char c "009" || is_char c "010"
                                    || is_char c "013")) url in
  let '(scheme, url) := split_scheme url in
  let '(netloc, url) :=
    match url with
    | a :: b :: rest =>
        if is_char a "/" && is_char b "/" then
          break (fun c => is_char c "/" || is_char c "?" || is_char c "#") rest
        else ([], url)
    | _ => ([], url)
    end in
  if xorb (existsb (is_char "[") netloc) (existsb (is_char "]") netloc)
  then inr "Invalid IPv6 URL"%string
  else
    let url := fst (partition (is_char "#") url) in
    let url := fst (partition (is_char "?") url) in
    let path :=
      if existsb (String.eqb scheme) uses_params then strip_params url
      else url in
    inl {| url_hostname := hostname netloc;
           url_port := port_of netloc;
           url_path := str path;
           url_username := fst (userinfo netloc);
           url_password := snd (userinfo netloc) |}.

(** The reference platform, given whether the driver is installed and what
    a connection attempt answers. *)
Definition platform (available : bool) (answer : ConnArgs -> option string)
    : Platform :=
  {| psycopg2_available := available;
     psycopg2_connect := answer;
     int_of_str := parse_int;
     urlparse := parse_url;
     utcnow_isoformat := "2024-05-17T09:30:00.000123" |}.

End Reference.

(** ** Answers of the database server *)

Definition refuse : ConnArgs -> option string :=
  fun _ => Some "connection refused".

Definition accept : ConnArgs -> option string := fun _ => None.

(** ** Vocabulary of the specification *)

(** A variable is set when the environment has it, whatever its value. *)
Definition is_set (env : gmap string string) (k : string) : Prop :=
  is_Some (env !! k).

(** A variable is set to a non-empty string. *)
Definition non_empty (env : gmap string string) (k : string) : Prop :=
  exists v, env !! k = Some v /\ v <> "".

(** One of the connection URL, the host and the database name is set. *)
Definition db_vars_set (env : gmap string string) : Prop :=
  is_set env "DATABASE_URL" \/
  (is_set env "DATABASE_HOST" \/ is_set env "DB_HOST") \/
  (is_set env "DATABASE_NAME" \/ is_set env "DB_NAME").

(** One of them is set to a non-empty string. *)
Definition db_vars_non_empty (env : gmap string string) : Prop :=
  non_empty env "DATABASE_URL" \/
  (non_empty env "DATABASE_HOST" \/ non_empty env "DB_HOST") \/
  (non_empty env "DATABASE_NAME" \/ non_empty env "DB_NAME").

(** The two fields every [/health] response starts from. *)
Definition base_status (py : Platform) : gmap string string :=
  <["timestamp" := utcnow_isoformat py ++ "Z"]> {["status" := "ok"]}.

(** The response to [GET /health] that does not involve the probe. *)
Definition health_without_probe (py : Platform) : M response :=
  ret (base_status py, 200).

(** The response to [GET /health] that invokes the probe and reports what it
    returned. *)
Definition health_with_probe (py : Platform) (env : gmap string string)
    : M response :=
  let* db_check := check_database py env in
  match db_check with
  | PTrue => ret (<["database" := "connected"]> (base_status py), 200)
  | PStr msg =>
      ret (<["database_error" := msg]>
             (<["database" := "error"]> (base_status py)), 503)
  end.

(** Two-tier alias precedence: the primary name if set, else the legacy name
    if set, else the default. *)
Definition two_tier {A} (inj : string -> A) (env : gmap string string)
    (primary legacy : string) (dflt : A) : A :=
  match env !! primary with
  | Some v => inj v
  | None =>
      match env !! legacy with
      | Some v => inj v
      | None => dflt
      end
  end.

(** One-tier precedence: the primary name if set, else the default. *)
Definition one_tier {A} (inj : string -> A) (env : gmap string string)
    (primary : string) (dflt : A) : A :=
  match env !! primary with
  | Some v => inj v
  | None => dflt
  end.



(** The probe connects with port [p]: every connection it opens uses [p]. *)
Definition connects_on_port (py : Platform) (env : gmap string string)
    (p : Z) : Prop :=
  forall a, In (Connect a) (trace (check_database py env)) -> port a = p.

(** Start-up reaches [app.run] and does nothing else. *)
Definition starts (py : Platform) (env : gmap string string) : Prop :=
  exists p, main py env = ([Listen "0.0.0.0" p], Return tt).

(** What the connection attempt of the probe can do: fail before the driver
    is called, open a connection, or be refused by the driver. *)
Inductive attempt (py : Platform) : M unit -> Prop :=
| attempt_invalid m :
    attempt py ([], Raise (ValueError m))
| attempt_opened a :
    psycopg2_connect py a = None ->
    attempt py ([Connect a], Return tt)
| attempt_failed a m :
    psycopg2_connect py a = Some m ->
    attempt py ([Connect a], Raise (DriverError m)).

(** The connections a trace opens. *)
Fixpoint connections (t : list event) : list ConnArgs :=
  match t with
  | Connect a :: t' => a :: connections t'
  | _ :: t' => connections t'
  | [] => []
  end.

(** The claim that the probe is invoked exactly when one of the variables
    is set. *)
Definition probes_iff_set (py : Platform) (env : gmap string string) : Prop :=
  db_vars_set env <-> health py env = health_with_probe py env.

(** The probe reads the port from the string [s] of the environment: in the
    branch without a URL, [s] is the two-tier choice between DATABASE_PORT
    and DB_PORT; in the branch with a URL, the URL has no port, or port 0,
    and [s] is DATABASE_PORT. *)
Definition probe_reads_port (py : Platform) (env : gmap string string)
    (s : string) : Prop :=
  (truthy (env !! "DATABASE_URL") = false /\
   two_tier Str env "DATABASE_PORT" "DB_PORT" (Int 5432) = Str s)
  \/
  (exists url parsed,
     env !! "DATABASE_URL" = Some url /\ url <> "" /\
     urlparse py url = inl parsed /\
     (url_port parsed = inl None \/ url_port parsed = inl (Some 0)) /\
     env !! "DATABASE_PORT" = Some s).

(** The claim that a URL without a port makes the probe use DATABASE_PORT if
    set and 5432 otherwise. *)
Definition port_falls_back (py : Platform) (env : gmap string string) : Prop :=
  forall url parsed,
    env !! "DATABASE_URL" = Some url ->
    urlparse py url = inl parsed ->
    url_port parsed = inl None ->
    (env !! "DATABASE_PORT" = None -> connects_on_port py env 5432) /\
    (forall s n, env !! "DATABASE_PORT" = Some s -> int_of_str py s = inl n ->
                 connects_on_port py env n).

(** [urlparse('')] has an empty path. *)
Definition empty_url_empty_path (py : Platform) : Prop :=
  forall parsed, urlparse py "" = inl parsed -> url_path parsed = "".

(** ** Concrete environments *)

Definition env_url : gmap string string :=
  {["DATABASE_URL" := "postgresql://u:p@db.local/app"]}.

Definition env_empty_url : gmap string string :=
  {["DATABASE_URL" := ""]}.

Definition env_bad_port : gmap string string :=
  {["PORT" := "abc"]}.

Definition env_empty_url_legacy : gmap string string :=
  <["DB_HOST" := "legacy.local"]> (<["DB_PORT" := "6000"]> env_empty_url).

Definition env_vars : gmap string string :=
  <["DATABASE_HOST" := "db.local"]>
    (<["DB_HOST" := "legacy.local"]>
       (<["DB_PORT" := "6000"]> (<["DB_NAME" := "app"]> ∅))).

Definition env_vars_bad_port : gmap string string :=
  <["DATABASE_PORT" := "54x2"]> env_vars.

Definition env_url_no_port : gmap string string :=
  <["DATABASE_PORT" := "6543"]>
    (<["DB_PORT" := "6000"]>
       (<["DB_HOST" := "legacy.local"]>
          {["DATABASE_URL" := "postgresql://u@db.local/app"]})).


Definition env_url_slash : gmap string string :=
  <["DATABASE_NAME" := "app"]>
    {["DATABASE_URL" := "postgresql://u:p@db.local:5433/"]}.

(** The reference platform with the driver installed and a server that
    accepts, or refuses, every connection. *)
Definition py_accept : Platform := Reference.platform true accept.

Definition py_refuse : Platform := Reference.platform true refuse.

Definition url_no_port : string := "postgresql://u@db.local/app".

Definition parsed_no_port : ParseResult :=
  {| url_hostname := Some "db.local";
     url_port := inl None;
     url_path := "/app";
     url_username := Some "u";
     url_password := None |}.

Definition url_slash : string := "postgresql://u:p@db.local:5433/".

Definition parsed_slash : ParseResult :=
  {| url_hostname := Some "db.local";
     url_port := inl (Some 5433);
     url_path := "/";
     url_username := Some "u";
     url_password := Some "p" |}.

Definition parsed_empty : ParseResult :=
  {| url_hostname := None;
     url_port := inl None;
     url_path := "";
     url_username := None;
     url_password := None |}.

(** ** Further vocabulary *)

(** The variables [check_database] and [health] read. *)
Definition db_names : list string :=
  ["DATABASE_URL";
   "DATABASE_HOST"; "DATABASE_PORT"; "DATABASE_NAME"; "DATABASE_USER";
   "DATABASE_PASSWORD";
   "DB_HOST"; "DB_PORT"; "DB_NAME"; "DB_USER"; "DB_PASSWORD"].

(** Two environments that agree on the given names. *)
Definition same_on (names : list string) (env env' : gmap string string)
    : Prop :=
  forall k, In k names -> env !! k = env' !! k.

(** Two platforms that behave the same: the import has the same result, the
    driver gives the same answer for the same arguments, int and urlparse
    agree on every string, and the clock reads the same. *)
Definition same_platform (py py' : Platform) : Prop :=
  psycopg2_available py = psycopg2_available py' /\
  (forall a, psycopg2_connect py a = psycopg2_connect py' a) /\
  (forall s, int_of_str py s = int_of_str py' s) /\
  (forall s, urlparse py s = urlparse py' s) /\
  utcnow_isoformat py = utcnow_isoformat py'.

(** The integer that [int] gives for a value, or the text of its
    ValueError. *)
Definition int_value (py : Platform) (v : str_or_int) : Z + string :=
  match v with
  | Int n => inl n
  | Str s => int_of_str py s
  end.

(** The connection parameters from the discrete variables, by two-tier
    precedence, or the text of the ValueError of the port. *)
Definition resolve_vars (py : Platform) (env : gmap string string)
    : ConnArgs + string :=
  match int_value py (two_tier Str env "DATABASE_PORT" "DB_PORT" (Int 5432)) with
  | inl p =>
      inl {| host := two_tier id env "DATABASE_HOST" "DB_HOST" "postgres";
             port := p;
             database := two_tier id env "DATABASE_NAME" "DB_NAME" "postgres";
             user := two_tier id env "DATABASE_USER" "DB_USER" "pgadmin";
             password :=
               two_tier id env "DATABASE_PASSWORD" "DB_PASSWORD" "admin123" |}
  | inr m => inr m
  end.

(** The port from a parsed URL: its own port unless that is missing or 0,
    else DATABASE_PORT, else 5432; or the text of the ValueError. *)
Definition resolve_port (py : Platform) (env : gmap string string)
    (parsed : ParseResult) : Z + string :=
  match url_port parsed with
  | inl (Some n) =>
      if n =? 0 then int_value py (one_tier Str env "DATABASE_PORT" (Int 5432))
      else inl n
  | inl None => int_value py (one_tier Str env "DATABASE_PORT" (Int 5432))
  | inr m => inr m
  end.

(** The connection parameters from a URL, each component that is missing or
    empty taken from the primary name, else the default; or the text of the
    ValueError of urlparse or of the port. *)
Definition resolve_url (py : Platform) (env : gmap string string)
    (url : string) : ConnArgs + string :=
  match urlparse py url with
  | inl parsed =>
      match resolve_port py env parsed with
      | inl p =>
          inl {| host := or_str (url_hostname parsed)
                           (one_tier id env "DATABASE_HOST" "postgres");
                 port := p;
                 database := match url_path parsed with
                             | "" => one_tier id env "DATABASE_NAME" "postgres"
                             | String _ rest => rest
                             end;
                 user := or_str (url_username parsed)
                           (one_tier id env "DATABASE_USER" "pgadmin");
                 password := or_str (url_password parsed)
                               (one_tier id env "DATABASE_PASSWORD" "admin123") |}
      | inr m => inr m
      end
  | inr m => inr m
  end.

(** The connection parameters the probe is to connect with: from the URL
    when DATABASE_URL is set to a non-empty string, from the discrete
    variables otherwise. *)
Definition resolve (py : Platform) (env : gmap string string)
    : ConnArgs + string :=
  match env !! "DATABASE_URL" with
  | Some url => if String.eqb url "" then resolve_vars py env
                else resolve_url py env url
  | None => resolve_vars py env
  end.

Definition args_url : ConnArgs :=
  {| host := "db.local"; port := 5432; database := "app";
     user := "u"; password := "p" |}.

(** The body of the 503 response that reports the text [msg]. *)
Definition error_status (py : Platform) (msg : string) : gmap string string :=
  <["database_error" := msg]> (<["database" := "error"]> (base_status py)).

(** The body of the 200 response that reports a connection. *)
Definition connected_status (py : Platform) : gmap string string :=
  <["database" := "connected"]> (base_status py).

(** ** Further concrete environments *)

Definition url_port0 : string := "postgresql://u:p@db.local:0/app".

Definition parsed_port0 : ParseResult :=
  {| url_hostname := Some "db.local";
     url_port := inl (Some 0);
     url_path := "/app";
     url_username := Some "u";
     url_password := Some "p" |}.

Definition env_url_port0 : gmap string string :=
  <["DATABASE_PORT" := "6543"]> {["DATABASE_URL" := url_port0]}.

Definition url_full : string := "postgresql://u:p@db.local:5433/app".

Definition parsed_full : ParseResult :=
  {| url_hostname := Some "db.local";
     url_port := inl (Some 5433);
     url_path := "/app";
     url_username := Some "u";
     url_password := Some "p" |}.

Definition args_full : ConnArgs :=
  {| host := "db.local"; port := 5433; database := "app";
     user := "u"; password := "p" |}.

(** A complete URL beside discrete variables, one of them malformed. *)
Definition env_url_full : gmap string string :=
  <["DATABASE_PORT" := "54x2"]>
    (<["DATABASE_HOST" := "other.local"]>
       (<["DB_USER" := "legacy"]> {["DATABASE_URL" := url_full]})).

Definition url_blank : string := "postgresql://:@db.local/app".

Definition parsed_blank : ParseResult :=
  {| url_hostname := Some "db.local";
     url_port := inl None;
     url_path := "/app";
     url_username := Some "";
     url_password := Some "" |}.

Definition env_url_blank : gmap string string :=
  <["DATABASE_USER" := "svc"]> {["DATABASE_URL" := url_blank]}.

Definition args_blank : ConnArgs :=
  {| host := "db.local"; port := 5432; database := "app";
     user := "svc"; password := "admin123" |}.

Definition url_big_port : string := "postgresql://u:p@db.local:99999/app".

Definition env_url_big_port : gmap string string :=
  {["DATABASE_URL" := url_big_port]}.

Definition parsed_big_port : ParseResult :=
  {| url_hostname := Some "db.local";
     url_port := inr "Port out of range 0-65535";
     url_path := "/app";
     url_username := Some "u";
     url_password := Some "p" |}.

Definition env_blank_host : gmap string string :=
  <["DATABASE_HOST" := ""]> {["DB_HOST" := "legacy.local"]}.

Definition env_url_and_more : gmap string string :=
  <["PORT" := "8080"]> (<["HOME" := "/root"]> env_url).

Definition py_no_driver : Platform := Reference.platform false accept.

(** ** Tactics *)

(** Evaluate a closed run or look-up. *)
Ltac lookup := vm_compute; reflexivity.

(** A variable of a concrete environment is not set to a non-empty string. *)
Ltac not_non_empty :=
  let v := fresh in let Hv := fresh in let Hne := fresh in
  intros (v & Hv & Hne); vm_compute in Hv;
  first [discriminate Hv | injection Hv as <-; apply Hne; reflexivity].

(** ** Monad equations *)

Lemma bind_ret {A B} (a : A) (k : A -> M B) : bind (ret a) k = k a.
Proof. unfold bind, ret. destruct (k a) as [t r]. reflexivity. Qed.

Lemma bind_raise {A B} (e : exn) (k : A -> M B) : bind (raise e) k = raise e.
Proof. reflexivity. Qed.

Lemma truthy_non_empty env k : truthy (env !! k) = true <-> non_empty env k.
Proof.
  unfold truthy, non_empty. destruct (env !! k) as [v|].
  - destruct (String.eqb_spec v "") as [->|Hne]; simpl; split.
    + discriminate.
    + intros (v & Hv & Hne). congruence.
    + eauto.
    + reflexivity.
  - split; [discriminate | intros (v & Hv & _); discriminate].
Qed.

Lemma truthy_py_or a b : truthy (py_or a b) = truthy a || truthy b.
Proof. unfold py_or. destruct (truthy a) eqn:E; simpl; auto. Qed.

(** The condition of line 59 holds exactly when one of the five variables is
    set to a non-empty string. *)
Lemma configured_non_empty env :
  truthy (py_or (env !! "DATABASE_URL")
            (py_or (py_or (env !! "DATABASE_HOST") (env !! "DB_HOST"))
                   (py_or (env !! "DATABASE_NAME") (env !! "DB_NAME")))) = true
  <-> db_vars_non_empty env.
Proof.
  rewrite !truthy_py_or, !orb_true_iff, !truthy_non_empty. reflexivity.
Qed.

(** ** The connection attempt *)

Lemma int_cases py v :
  (exists n, int py v = ret n) \/ (exists m, int py v = raise (ValueError m)).
Proof.
  destruct v as [s|n]; simpl; [|eauto].
  destruct (int_of_str py s); eauto.
Qed.

Lemma connect_attempt py a : attempt py (connect py a).
Proof.
  unfold connect, bind, emit. destruct (psycopg2_connect py a) eqn:E; simpl.
  - apply attempt_failed, E.
  - apply attempt_opened, E.
Qed.

Lemma bind_int_attempt py v (k : Z -> M unit) :
  (forall n, attempt py (k n)) -> attempt py (bind (int py v) k).
Proof.
  intros Hk. destruct (int_cases py v) as [[n ->]|[m ->]].
  - rewrite bind_ret. apply Hk.
  - apply attempt_invalid.
Qed.

Lemma connect_vars_attempt py env : attempt py (connect_vars py env).
Proof. apply bind_int_attempt. intros n. apply connect_attempt. Qed.

Lemma connect_url_attempt py env url : attempt py (connect_url py env url).
Proof.
  unfold connect_url, parse. destruct (urlparse py url) as [parsed|m].
  2: apply attempt_invalid.
  rewrite bind_ret. unfold port_or_env, get_port.
  destruct (url_port parsed) as [[n|]|m].
  - rewrite bind_ret. destruct (n =? 0).
    + apply bind_int_attempt. intros p. apply connect_attempt.
    + rewrite bind_ret. apply connect_attempt.
  - rewrite bind_ret. apply bind_int_attempt. intros p. apply connect_attempt.
  - apply attempt_invalid.
Qed.

Lemma open_connection_attempt py env u : attempt py (open_connection py env u).
Proof.
  unfold open_connection. destruct (truthy u).
  - apply connect_url_attempt.
  - apply connect_vars_attempt.
Qed.

(** [check_database] in terms of its connection attempt. *)
Lemma check_database_unfold py env :
  check_database py env =
  if psycopg2_available py then
    match open_connection py env (env !! "DATABASE_URL") with
    | (t, Return _) => ((t ++ [Close])%list, Return PTrue)
    | (t, Raise e) => (t, Return (PStr (str_exn e)))
    end
  else ([], Return (PStr "psycopg2 not installed")).
Proof.
  unfold check_database, check_database_body, import_psycopg2.
  destruct (psycopg2_available py); [|reflexivity].
  rewrite bind_ret.
  destruct (open_connection_attempt py env (env !! "DATABASE_URL")); reflexivity.
Qed.

(** ** Concrete runs *)

Example run_health_unconfigured :
  health py_refuse ∅ =
  ([], Return (<["timestamp" := "2024-05-17T09:30:00.000123Z"]>
                 {["status" := "ok"]}, 200)).
Proof. lookup. Qed.

Example run_health_url_ok :
  health py_accept env_url =
  ([Connect {| host := "db.local"; port := 5432; database := "app";
               user := "u"; password := "p" |}; Close],
   Return (<["database" := "connected"]>
             (<["timestamp" := "2024-05-17T09:30:00.000123Z"]>
                {["status" := "ok"]}),
           200)).
Proof. lookup. Qed.

Example run_health_url_refused :
  health py_refuse env_url =
  ([Connect {| host := "db.local"; port := 5432; database := "app";
               user := "u"; password := "p" |}],
   Return (<["database_error" := "connection refused"]>
             (<["database" := "error"]>
                (<["timestamp" := "2024-05-17T09:30:00.000123Z"]>
                   {["status" := "ok"]})),
           503)).
Proof. lookup. Qed.

Example run_health_no_driver :
  health (Reference.platform false accept) env_url =
  ([], Return (<["database_error" := "psycopg2 not installed"]>
                 (<["database" := "error"]>
                    (<["timestamp" := "2024-05-17T09:30:00.000123Z"]>
                       {["status" := "ok"]})),
               503)).
Proof. lookup. Qed.

Example run_health_slash :
  trace (health py_accept env_url_slash) =
  [Connect {| host := "db.local"; port := 5433; database := "";
              user := "u"; password := "p" |}; Close].
Proof. lookup. Qed.

Example run_health_empty_url :
  health py_refuse env_empty_url =
  ([], Return (<["timestamp" := "2024-05-17T09:30:00.000123Z"]>
                 {["status" := "ok"]}, 200)).
Proof. lookup. Qed.

Example run_main_default : main py_accept ∅ = ([Listen "0.0.0.0" 3000], Return tt).
Proof. lookup. Qed.

Example run_root :
  root ∅ = ([], Return (<["version" := "1.0.0"]>
                          {["message" := "AI Fabrix Application"]}, 200)).
Proof. lookup. Qed.

(** ** The probe *)

Lemma check_database_returns py env :
  exists t r, check_database py env = (t, Return r).
Proof.
  rewrite check_database_unfold. destruct (psycopg2_available py); [|eauto].
  destruct (open_connection py env (env !! "DATABASE_URL")) as [t [[]|e]]; eauto.
Qed.

(** ** The health endpoint *)

Lemma health_unfold py env :
  health py env =
  if truthy (py_or (env !! "DATABASE_URL")
               (py_or (py_or (env !! "DATABASE_HOST") (env !! "DB_HOST"))
                      (py_or (env !! "DATABASE_NAME") (env !! "DB_NAME"))))
  then health_with_probe py env
  else health_without_probe py.
Proof. reflexivity. Qed.

Lemma base_status_lookup py :
  base_status py !! "status" = Some "ok" /\
  base_status py !! "timestamp" = Some (utcnow_isoformat py ++ "Z") /\
  base_status py !! "database" = None /\
  base_status py !! "database_error" = None.
Proof. unfold base_status. repeat split; by simplify_map_eq. Qed.

Lemma base_status_dom py : dom (base_status py) = {["status"; "timestamp"]}.
Proof. unfold base_status. rewrite dom_insert_L, dom_singleton_L. set_solver. Qed.

Lemma connected_body_lookup py :
  let body := <["database" := "connected"]> (base_status py) in
  body !! "status" = Some "ok" /\
  body !! "database" = Some "connected" /\
  body !! "database_error" = None.
Proof. unfold base_status. repeat split; by simplify_map_eq. Qed.

Lemma error_body_lookup py msg :
  let body := <["database_error" := msg]>
                (<["database" := "error"]> (base_status py)) in
  body !! "status" = Some "ok" /\
  body !! "database" = Some "error" /\
  body !! "database_error" = Some msg.
Proof. unfold base_status. repeat split; by simplify_map_eq. Qed.

(** What [health_with_probe] answers, from what the probe returns. *)
Lemma health_with_probe_run py env t r :
  check_database py env = (t, Return r) ->
  health_with_probe py env =
  (t, Return (match r with
              | PTrue => (<["database" := "connected"]> (base_status py), 200)
              | PStr msg => (<["database_error" := msg]>
                               (<["database" := "error"]> (base_status py)), 503)
              end)).
Proof.
  intros H. unfold health_with_probe. rewrite H.
  destruct r; simpl; rewrite app_nil_r; reflexivity.
Qed.

Lemma health_with_probe_differs py env :
  health_with_probe py env <> health_without_probe py.
Proof.
  destruct (check_database_returns py env) as (t & r & H).
  rewrite (health_with_probe_run _ _ _ _ H). unfold health_without_probe, ret.
  intros Heq. destruct r; inversion Heq.
Qed.

(** The two ways [health] goes, by the variables of the environment. *)
Lemma health_configured py env :
  db_vars_non_empty env -> health py env = health_with_probe py env.
Proof.
  intros H. apply configured_non_empty in H. rewrite health_unfold, H.
  reflexivity.
Qed.

Lemma health_unconfigured py env :
  ~ db_vars_non_empty env -> health py env = health_without_probe py.
Proof.
  intros H. rewrite health_unfold. destruct (truthy _) eqn:E; [|reflexivity].
  exfalso. apply H, configured_non_empty, E.
Qed.

(** C1, as amended: GET /health invokes the probe if and only if at least
    one of DATABASE_URL, the host (DATABASE_HOST or DB_HOST) and the database
    name (DATABASE_NAME or DB_NAME) is set to a non-empty string. When none
    of them is, it calls nothing and returns HTTP 200 with a body that has
    exactly the fields status and timestamp, whatever else the environment
    holds. *)
Theorem health_probes_iff_configured py env :
  (db_vars_non_empty env <-> health py env = health_with_probe py env) /\
  (~ db_vars_non_empty env ->
   health py env = ([], Return (base_status py, 200)) /\
   dom (base_status py) = {["status"; "timestamp"]} /\
   base_status py !! "database" = None).
Proof.
  split.
  - split; [apply health_configured|]. intros H.
    destruct (truthy (py_or (env !! "DATABASE_URL")
                 (py_or (py_or (env !! "DATABASE_HOST") (env !! "DB_HOST"))
                        (py_or (env !! "DATABASE_NAME") (env !! "DB_NAME")))))
      eqn:E.
    + apply configured_non_empty, E.
    + rewrite health_unfold, E in H. symmetry in H.
      destruct (health_with_probe_differs py env H).
  - intros H. split; [apply (health_unconfigured py env H)|].
    split; [apply base_status_dom|]. apply base_status_lookup.
Qed.

(** C2: when database configuration is detected, the response is HTTP 200
    with database = connected and no database_error exactly when the probe
    returned True, and HTTP 503 with database = error and database_error =
    the probe's text exactly when the probe returned that text; the field
    database_error is present only in the second case. *)
Theorem health_reports_probe py env :
  db_vars_non_empty env ->
  exists t r body code,
    check_database py env = (t, Return r) /\
    health py env = (t, Return (body, code)) /\
    (code = 200 /\ body !! "database" = Some "connected" /\
     body !! "database_error" = None <-> r = PTrue) /\
    (forall msg,
       code = 503 /\ body !! "database" = Some "error" /\
       body !! "database_error" = Some msg <-> r = PStr msg) /\
    (is_Some (body !! "database_error") <-> r <> PTrue).
Proof.
  intros Hc. apply (health_configured py env) in Hc.
  destruct (check_database_returns py env) as (t & r & Hr).
  rewrite Hc, (health_with_probe_run _ _ _ _ Hr).
  destruct r as [|s].
  - destruct (connected_body_lookup py) as (_ & Hdb & Herr).
    exists t, PTrue, (<["database" := "connected"]> (base_status py)), 200.
    rewrite Hdb, Herr. split; [exact Hr|]. split; [reflexivity|].
    split; [tauto|]. split.
    + intros msg. split; [intros (H & _)|intros H]; discriminate.
    + split; [intros [v Hv]; discriminate | congruence].
  - destruct (error_body_lookup py s) as (_ & Hdb & Herr).
    exists t, (PStr s),
      (<["database_error" := s]> (<["database" := "error"]> (base_status py))), 503.
    rewrite Hdb, Herr. split; [exact Hr|]. split; [reflexivity|].
    split; [split; [intros (H & _)|intros H]; discriminate|]. split.
    + intros msg. split; [intros (_ & _ & H); congruence|].
      intros H. injection H as ->. auto.
    + split; [discriminate | eauto].
Qed.

(** C7: every response to GET /health has the field status equal to ok.
    Its code is 200, or it is 503 and the body has besides the fields
    database = error and database_error. *)
Theorem health_status_ok py env :
  exists t body code,
    health py env = (t, Return (body, code)) /\
    body !! "status" = Some "ok" /\
    (code = 200 \/
     (code = 503 /\ body !! "database" = Some "error" /\
      is_Some (body !! "database_error"))).
Proof.
  rewrite health_unfold.
  destruct (truthy _).
  - destruct (check_database_returns py env) as (t & r & Hr).
    rewrite (health_with_probe_run _ _ _ _ Hr). destruct r as [|s].
    + destruct (connected_body_lookup py) as (Hst & _).
      eexists _, _, _. split; [reflexivity|].
      split; [exact Hst|]. auto.
    + destruct (error_body_lookup py s) as (Hst & Hdb & Herr).
      eexists _, _, _. split; [reflexivity|].
      split; [exact Hst|]. right. split; [reflexivity|].
      split; [exact Hdb|]. exists s. exact Herr.
  - destruct (base_status_lookup py) as (Hst & _).
    eexists _, _, _. split; [reflexivity|]. split; [exact Hst|]. auto.
Qed.

(** ** The root endpoint *)

(** C8: GET / is served by root, which on every platform and in every
    environment calls nothing and returns HTTP 200 with the body whose only
    fields are message = AI Fabrix Application and version = 1.0.0. *)
Theorem root_fixed (py : Platform) (env : gmap string string) :
  app_route py "/" = Some root /\
  exists body,
    root env = ([], Return (body, 200)) /\
    body !! "message" = Some "AI Fabrix Application" /\
    body !! "version" = Some "1.0.0" /\
    dom body = {["message"; "version"]}.
Proof.
  split; [reflexivity|]. eexists. split; [reflexivity|].
  split; [by simplify_map_eq|]. split; [by simplify_map_eq|].
  rewrite dom_insert_L, dom_singleton_L. set_solver.
Qed.

(** ** Runs of the connection attempt *)

Lemma connect_trace py a : trace (connect py a) = [Connect a].
Proof.
  unfold connect, bind, emit. destruct (psycopg2_connect py a); reflexivity.
Qed.

(** When the connection attempt reaches the driver with arguments [a], the
    probe opens that connection first, and no other. *)
Lemma probe_trace py env a :
  open_connection py env (env !! "DATABASE_URL") = connect py a ->
  (forall b, In (Connect b) (trace (check_database py env)) -> b = a) /\
  (psycopg2_available py = true ->
   exists t, trace (check_database py env) = Connect a :: t).
Proof.
  intros H. rewrite check_database_unfold, H.
  pose proof (connect_trace py a) as Ht.
  destruct (connect py a) as [t [[]|e]]; simpl in Ht; subst t; split.
  - destruct (psycopg2_available py); simpl; intros b Hb;
      intuition congruence.
  - intros ->. simpl. eauto.
  - destruct (psycopg2_available py); simpl; intros b Hb;
      intuition congruence.
  - intros ->. simpl. eauto.
Qed.

(** When the connection attempt raises before reaching the driver, the probe
    calls nothing and returns the text of the error. *)
Lemma probe_invalid py env m :
  psycopg2_available py = true ->
  open_connection py env (env !! "DATABASE_URL") = raise (ValueError m) ->
  check_database py env = ([], Return (PStr m)).
Proof. intros Hav H. rewrite check_database_unfold, Hav, H. reflexivity. Qed.

Lemma connect_vars_run py env :
  connect_vars py env =
  let* p := int py (two_tier Str env "DATABASE_PORT" "DB_PORT" (Int 5432)) in
  connect py {| host := two_tier id env "DATABASE_HOST" "DB_HOST" "postgres";
                port := p;
                database := two_tier id env "DATABASE_NAME" "DB_NAME" "postgres";
                user := two_tier id env "DATABASE_USER" "DB_USER" "pgadmin";
                password :=
                  two_tier id env "DATABASE_PASSWORD" "DB_PASSWORD" "admin123" |}.
Proof.
  unfold connect_vars, two_tier, environ_get, environ_get_any.
  repeat match goal with |- context [env !! ?k] => destruct (env !! k) end;
    reflexivity.
Qed.

Lemma connect_url_run py env url parsed p :
  urlparse py url = inl parsed ->
  port_or_env py env parsed = ret p ->
  connect_url py env url =
  connect py
    {| host := or_str (url_hostname parsed)
                 (one_tier id env "DATABASE_HOST" "postgres");
       port := p;
       database := match url_path parsed with
                   | "" => one_tier id env "DATABASE_NAME" "postgres"
                   | String _ rest => rest
                   end;
       user := or_str (url_username parsed)
                 (one_tier id env "DATABASE_USER" "pgadmin");
       password := or_str (url_password parsed)
                     (one_tier id env "DATABASE_PASSWORD" "admin123") |}.
Proof.
  intros Hu Hp. unfold connect_url, parse. rewrite Hu, bind_ret, Hp, bind_ret.
  reflexivity.
Qed.

Lemma connect_url_invalid py env url parsed m :
  urlparse py url = inl parsed ->
  port_or_env py env parsed = raise (ValueError m) ->
  connect_url py env url = raise (ValueError m).
Proof.
  intros Hu Hp. unfold connect_url, parse. rewrite Hu, bind_ret, Hp.
  reflexivity.
Qed.

(** The port of the URL branch when the URL has none, or has port 0. *)
Lemma port_or_env_absent py env parsed :
  url_port parsed = inl None \/ url_port parsed = inl (Some 0) ->
  port_or_env py env parsed =
  int py (one_tier Str env "DATABASE_PORT" (Int 5432)).
Proof.
  intros [H|H]; unfold port_or_env, get_port; rewrite H, bind_ret; reflexivity.
Qed.

Lemma port_or_env_cases py env parsed :
  (exists p, port_or_env py env parsed = ret p) \/
  (exists m, port_or_env py env parsed = raise (ValueError m)).
Proof.
  unfold port_or_env, get_port. destruct (url_port parsed) as [[n|]|m].
  - rewrite bind_ret. destruct (n =? 0); [apply int_cases | eauto].
  - rewrite bind_ret. apply int_cases.
  - right. eauto.
Qed.

Lemma open_connection_url py env url :
  env !! "DATABASE_URL" = Some url -> url <> "" ->
  open_connection py env (env !! "DATABASE_URL") = connect_url py env url.
Proof.
  intros H Hne. unfold open_connection. rewrite H. simpl.
  destruct (String.eqb_spec url ""); [contradiction | reflexivity].
Qed.

Lemma open_connection_vars py env :
  truthy (env !! "DATABASE_URL") = false ->
  open_connection py env (env !! "DATABASE_URL") = connect_vars py env.
Proof. intros H. unfold open_connection. rewrite H. reflexivity. Qed.

Lemma probe_invalid_trace py env m :
  open_connection py env (env !! "DATABASE_URL") = raise (ValueError m) ->
  trace (check_database py env) = [].
Proof.
  intros H. rewrite check_database_unfold, H.
  destruct (psycopg2_available py); reflexivity.
Qed.

(** The port the URL branch connects with. *)
Lemma url_port_used py env url parsed p :
  env !! "DATABASE_URL" = Some url -> url <> "" ->
  urlparse py url = inl parsed ->
  port_or_env py env parsed = ret p ->
  connects_on_port py env p /\
  (psycopg2_available py = true ->
   exists a t, trace (check_database py env) = Connect a :: t /\ port a = p).
Proof.
  intros Hu Hne Hparse Hp.
  pose proof (open_connection_url py env url Hu Hne) as Ho.
  rewrite (connect_url_run py env url parsed p Hparse Hp) in Ho.
  destruct (probe_trace py env _ Ho) as [Hall Hex]. split.
  - intros a Ha. rewrite (Hall a Ha). reflexivity.
  - intros Hav. destruct (Hex Hav) as [t Ht]. eexists _, t. split; [exact Ht|].
    reflexivity.
Qed.

(** ** The outcomes of the probe *)

Lemma int_value_run py v :
  int py v = match int_value py v with
             | inl n => ret n
             | inr m => raise (ValueError m)
             end.
Proof. destruct v; reflexivity. Qed.

(** The connection attempt calls the driver with the resolved parameters,
    or raises the ValueError met while resolving them. *)
Lemma open_connection_resolve py env :
  open_connection py env (env !! "DATABASE_URL") =
  match resolve py env with
  | inl a => connect py a
  | inr m => raise (ValueError m)
  end.
Proof.
  assert (Hvars : connect_vars py env =
                  match resolve_vars py env with
                  | inl a => connect py a
                  | inr m => raise (ValueError m)
                  end).
  { rewrite connect_vars_run, int_value_run. unfold resolve_vars.
    destruct (int_value py _); [rewrite bind_ret|]; reflexivity. }
  unfold open_connection, resolve.
  destruct (env !! "DATABASE_URL") as [url|]; simpl; [|exact Hvars].
  destruct (String.eqb url ""); simpl; [exact Hvars|].
  unfold connect_url, resolve_url, parse.
  destruct (urlparse py url) as [parsed|m]; [|reflexivity].
  rewrite bind_ret.
  assert (Hport : port_or_env py env parsed =
                  match resolve_port py env parsed with
                  | inl n => ret n
                  | inr m => raise (ValueError m)
                  end).
  { unfold port_or_env, get_port, resolve_port.
    destruct (url_port parsed) as [[n|]|m]; [| |reflexivity];
      rewrite bind_ret; [destruct (n =? 0); [|reflexivity]|];
      rewrite <- int_value_run; reflexivity. }
  rewrite Hport. destruct (resolve_port py env parsed) as [n|m].
  - rewrite bind_ret. reflexivity.
  - reflexivity.
Qed.

(** C6: the probe never raises and ends in one of three ways. Without the
    driver it returns the fixed text and calls nothing. With the driver and
    connection parameters that resolve, it calls the driver exactly once,
    with those parameters: if the driver returns a connection, the probe
    closes it at once and returns True; if the driver raises, the probe
    returns the text of that error and closes nothing. With the driver and
    parameters that do not resolve (int or urlparse raises), the connection
    attempt fails before the driver is called and the probe returns the
    text of that error. In no case is a second connection opened. *)
Theorem probe_outcomes py env :
  (exists r, result (check_database py env) = Return r) /\
  (length (connections (trace (check_database py env))) <= 1)%nat /\
  (psycopg2_available py = false ->
   check_database py env = ([], Return (PStr "psycopg2 not installed"))) /\
  (psycopg2_available py = true ->
   forall a, resolve py env = inl a ->
     (psycopg2_connect py a = None ->
      check_database py env = ([Connect a; Close], Return PTrue)) /\
     (forall m, psycopg2_connect py a = Some m ->
      check_database py env = ([Connect a], Return (PStr m)))) /\
  (psycopg2_available py = true ->
   forall m, resolve py env = inr m ->
     check_database py env = ([], Return (PStr m))).
Proof.
  rewrite check_database_unfold, open_connection_resolve.
  destruct (psycopg2_available py) eqn:Hav.
  2: { split; [eauto|]. split; [simpl; lia|]. split; [reflexivity|].
       split; discriminate. }
  destruct (resolve py env) as [a|m].
  - unfold connect, bind, emit.
    destruct (psycopg2_connect py a) as [m|] eqn:Ha; simpl.
    + split; [eauto|]. split; [lia|]. split; [discriminate|]. split.
      * intros _ b Hb. injection Hb as <-. rewrite Ha.
        split; [discriminate|]. intros m' Hm. injection Hm as <-. reflexivity.
      * intros _ m' Hm. discriminate.
    + split; [eauto|]. split; [lia|]. split; [discriminate|]. split.
      * intros _ b Hb. injection Hb as <-. rewrite Ha.
        split; [reflexivity|]. intros m' Hm. discriminate.
      * intros _ m' Hm. discriminate.
  - simpl. split; [eauto|]. split; [lia|]. split; [discriminate|]. split.
    + intros _ b Hb. discriminate.
    + intros _ m' Hm. injection Hm as <-. reflexivity.
Qed.

(** ** Resolution of the connection parameters *)

(** C4, as amended: when DATABASE_URL is set to a non-empty string whose
    parse has no port, the probe connects on port 5432 if DATABASE_PORT is
    not set, and on the integer that int() reads from DATABASE_PORT if it is
    set and int() accepts it. In both cases every connection the probe opens
    uses that port, and with the driver installed it does open one. *)
Theorem url_without_port py env url parsed :
  env !! "DATABASE_URL" = Some url -> url <> "" ->
  urlparse py url = inl parsed ->
  url_port parsed = inl None ->
  (env !! "DATABASE_PORT" = None ->
   connects_on_port py env 5432 /\
   (psycopg2_available py = true ->
    exists a t, trace (check_database py env) = Connect a :: t /\
                port a = 5432)) /\
  (forall s n,
     env !! "DATABASE_PORT" = Some s -> int_of_str py s = inl n ->
     connects_on_port py env n /\
     (psycopg2_available py = true ->
      exists a t, trace (check_database py env) = Connect a :: t /\
                  port a = n)).
Proof.
  intros Hu Hne Hparse Hport.
  pose proof (port_or_env_absent py env parsed (or_introl Hport)) as Hp.
  unfold one_tier in Hp. split.
  - intros Hnone. rewrite Hnone in Hp.
    exact (url_port_used py env url parsed 5432 Hu Hne Hparse Hp).
  - intros s n Hs Hint. rewrite Hs in Hp. simpl in Hp. rewrite Hint in Hp.
    exact (url_port_used py env url parsed n Hu Hne Hparse Hp).
Qed.

(** C5: when DATABASE_URL is not set, every connection the probe opens has
    each parameter resolved by two-tier precedence: the primary name
    (DATABASE_HOST, DATABASE_PORT, DATABASE_NAME, DATABASE_USER,
    DATABASE_PASSWORD) if set, else the legacy name (DB_HOST, DB_PORT,
    DB_NAME, DB_USER, DB_PASSWORD) if set, else the default (postgres, 5432,
    postgres, pgadmin, admin123), the port being int() of the chosen value.
    With the driver installed and a port that int() accepts, the probe does
    open that connection. *)
Theorem discrete_vars_two_tier py env :
  env !! "DATABASE_URL" = None ->
  (forall a, In (Connect a) (trace (check_database py env)) ->
     host a = two_tier id env "DATABASE_HOST" "DB_HOST" "postgres" /\
     int py (two_tier Str env "DATABASE_PORT" "DB_PORT" (Int 5432))
       = ret (port a) /\
     database a = two_tier id env "DATABASE_NAME" "DB_NAME" "postgres" /\
     user a = two_tier id env "DATABASE_USER" "DB_USER" "pgadmin" /\
     password a =
       two_tier id env "DATABASE_PASSWORD" "DB_PASSWORD" "admin123") /\
  (psycopg2_available py = true ->
   forall p,
     int py (two_tier Str env "DATABASE_PORT" "DB_PORT" (Int 5432)) = ret p ->
     exists t,
       trace (check_database py env) =
       Connect
         {| host := two_tier id env "DATABASE_HOST" "DB_HOST" "postgres";
            port := p;
            database := two_tier id env "DATABASE_NAME" "DB_NAME" "postgres";
            user := two_tier id env "DATABASE_USER" "DB_USER" "pgadmin";
            password :=
              two_tier id env "DATABASE_PASSWORD" "DB_PASSWORD" "admin123" |}
       :: t).
Proof.
  intros Hu.
  assert (Ho : open_connection py env (env !! "DATABASE_URL")
               = connect_vars py env).
  { apply open_connection_vars. rewrite Hu. reflexivity. }
  rewrite connect_vars_run in Ho.
  destruct (int_cases py (two_tier Str env "DATABASE_PORT" "DB_PORT" (Int 5432)))
    as [[p Hp]|[m Hm]].
  - rewrite Hp, bind_ret in Ho.
    destruct (probe_trace py env _ Ho) as [Hall Hex]. split.
    + intros a Ha. rewrite (Hall a Ha). simpl. rewrite Hp. auto.
    + intros Hav q Hq. rewrite Hp in Hq. injection Hq as <-. exact (Hex Hav).
  - rewrite Hm in Ho. simpl in Ho. split.
    + intros a Ha. rewrite (probe_invalid_trace py env m Ho) in Ha.
      destruct Ha.
    + intros _ q Hq. rewrite Hm in Hq. discriminate.
Qed.


(** What the URL branch takes from the environment for the components the
    URL lacks. *)
Lemma url_fallbacks py env url parsed a :
  env !! "DATABASE_URL" = Some url -> url <> "" ->
  urlparse py url = inl parsed ->
  In (Connect a) (trace (check_database py env)) ->
  (url_hostname parsed = None ->
   host a = one_tier id env "DATABASE_HOST" "postgres") /\
  (url_port parsed = inl None ->
   int py (one_tier Str env "DATABASE_PORT" (Int 5432)) = ret (port a)) /\
  (url_path parsed = "" ->
   database a = one_tier id env "DATABASE_NAME" "postgres") /\
  (url_username parsed = None ->
   user a = one_tier id env "DATABASE_USER" "pgadmin") /\
  (url_password parsed = None ->
   password a = one_tier id env "DATABASE_PASSWORD" "admin123").
Proof.
  intros Hu Hne Hparse Ha.
  pose proof (open_connection_url py env url Hu Hne) as Ho.
  destruct (port_or_env_cases py env parsed) as [[p Hp]|[m Hm]].
  - rewrite (connect_url_run py env url parsed p Hparse Hp) in Ho.
    destruct (probe_trace py env _ Ho) as [Hall _].
    rewrite (Hall a Ha). simpl. repeat split.
    + intros ->. reflexivity.
    + intros H. rewrite <- Hp. symmetry.
      apply port_or_env_absent. auto.
    + intros ->. reflexivity.
    + intros ->. reflexivity.
    + intros ->. reflexivity.
  - rewrite (connect_url_invalid py env url parsed m Hparse Hm) in Ho.
    rewrite (probe_invalid_trace py env m Ho) in Ha. destruct Ha.
Qed.



(** C10: when DATABASE_URL is set and the path of its parse is exactly the
    slash, every connection the probe opens has the empty string as database
    name, whatever DATABASE_NAME holds, and with the driver installed and a
    port that resolves the probe does open one. More generally a non-empty
    path gives the path without its first character, and the fall-back to
    DATABASE_NAME and then postgres is taken when the URL is non-empty and
    its path is empty. *)
Theorem slash_path_empty_database py env url parsed :
  empty_url_empty_path py ->
  env !! "DATABASE_URL" = Some url ->
  urlparse py url = inl parsed ->
  (url_path parsed = "/" ->
   (forall a, In (Connect a) (trace (check_database py env)) ->
              database a = "") /\
   (psycopg2_available py = true ->
    forall p, port_or_env py env parsed = ret p ->
    exists a t, trace (check_database py env) = Connect a :: t /\
                database a = "")) /\
  (forall c rest, url_path parsed = String c rest ->
   forall a, In (Connect a) (trace (check_database py env)) ->
             database a = rest) /\
  (url_path parsed = "" -> url <> "" ->
   forall a, In (Connect a) (trace (check_database py env)) ->
             database a = one_tier id env "DATABASE_NAME" "postgres").
Proof.
  intros Hempty Hu Hparse.
  assert (Hrest : forall c rest, url_path parsed = String c rest ->
            url <> "" /\
            forall a, In (Connect a) (trace (check_database py env)) ->
                      database a = rest).
  { intros c rest Hpath.
    assert (Hne : url <> "").
    { intros ->. rewrite (Hempty parsed Hparse) in Hpath. discriminate. }
    split; [exact Hne|]. intros a Ha.
    pose proof (open_connection_url py env url Hu Hne) as Ho.
    destruct (port_or_env_cases py env parsed) as [[p Hp]|[m Hm]].
    - rewrite (connect_url_run py env url parsed p Hparse Hp) in Ho.
      destruct (probe_trace py env _ Ho) as [Hall _].
      rewrite (Hall a Ha). simpl. rewrite Hpath. reflexivity.
    - rewrite (connect_url_invalid py env url parsed m Hparse Hm) in Ho.
      rewrite (probe_invalid_trace py env m Ho) in Ha. destruct Ha. }
  split; [|split].
  - intros Hpath. destruct (Hrest _ _ Hpath) as [Hne Hall]. split.
    + exact Hall.
    + intros Hav p Hp.
      pose proof (open_connection_url py env url Hu Hne) as Ho.
      rewrite (connect_url_run py env url parsed p Hparse Hp) in Ho.
      destruct (probe_trace py env _ Ho) as [_ Hex].
      destruct (Hex Hav) as [t Ht]. eexists _, t. split; [exact Ht|].
      simpl. rewrite Hpath. reflexivity.
  - intros c rest Hpath. exact (proj2 (Hrest c rest Hpath)).
  - intros Hpath Hne a Ha.
    destruct (url_fallbacks py env url parsed a Hu Hne Hparse Ha)
      as (_ & _ & Hd & _).
    exact (Hd Hpath).
Qed.

(** ** Errors and start-up *)

(** A port string that int() rejects makes the connection attempt raise the
    ValueError before the driver is called. *)
Lemma bad_port_invalid py env s m :
  probe_reads_port py env s -> int_of_str py s = inr m ->
  open_connection py env (env !! "DATABASE_URL") = raise (ValueError m).
Proof.
  intros [[Hu Hs]|(url & parsed & Hu & Hne & Hparse & Hport & Hs)] Hint.
  - rewrite (open_connection_vars py env Hu), connect_vars_run, Hs. simpl.
    rewrite Hint. reflexivity.
  - rewrite (open_connection_url py env url Hu Hne).
    apply (connect_url_invalid py env url parsed m Hparse).
    rewrite (port_or_env_absent py env parsed Hport). unfold one_tier.
    rewrite Hs. simpl. rewrite Hint. reflexivity.
Qed.

(** C3, as amended: serving a request never raises: in every environment
    GET /health and GET / return a response, and a DATABASE_PORT or DB_PORT
    that int() rejects, when the probe reads it, shows as a probe failure,
    the 503 response of /health carrying the text of the ValueError.
    Start-up reaches app.run on 0.0.0.0 with port 3000 when PORT is not set
    and with int(PORT) when int() accepts it; when int() rejects PORT the
    ValueError is raised at line 6 and app.run is not reached. *)
Theorem requests_never_raise py env :
  (exists t resp, health py env = (t, Return resp)) /\
  (exists resp, root env = ([], Return resp)) /\
  (forall s m,
     psycopg2_available py = true -> db_vars_non_empty env ->
     probe_reads_port py env s -> int_of_str py s = inr m ->
     health py env =
     ([], Return (<["database_error" := m]>
                    (<["database" := "error"]> (base_status py)), 503))) /\
  (env !! "PORT" = None ->
   main py env = ([Listen "0.0.0.0" 3000], Return tt)) /\
  (forall s n, env !! "PORT" = Some s -> int_of_str py s = inl n ->
               main py env = ([Listen "0.0.0.0" n], Return tt)) /\
  (forall s m, env !! "PORT" = Some s -> int_of_str py s = inr m ->
               main py env = ([], Raise (ValueError m))).
Proof.
  split.
  { rewrite health_unfold. destruct (truthy _).
    - destruct (check_database_returns py env) as (t & r & Hr).
      rewrite (health_with_probe_run _ _ _ _ Hr). eauto.
    - unfold health_without_probe, ret. eauto. }
  split; [unfold root, ret; eauto|].
  split.
  { intros s m Hav Hc Hread Hint.
    pose proof (bad_port_invalid py env s m Hread Hint) as Ho.
    pose proof (probe_invalid py env m Hav Ho) as Hr.
    rewrite (health_configured py env Hc).
    apply (health_with_probe_run _ _ _ _ Hr). }
  unfold main, environ_get_any. split; [intros ->; reflexivity|].
  split; intros s x -> Hint; simpl; rewrite Hint; reflexivity.
Qed.

(** ** The theorems on concrete environments *)

Lemma reference_empty_url b answer :
  empty_url_empty_path (Reference.platform b answer).
Proof. intros parsed H. vm_compute in H. injection H as <-. reflexivity. Qed.

(** With DATABASE_URL set to the empty string and nothing else, /health
    answers 200 without a database field although DATABASE_URL is set: the
    probe, which here would be refused and give a 503, is not invoked. *)
Lemma health_skips_probe_on_empty_url :
  ~ probes_iff_set py_refuse env_empty_url.
Proof.
  intros [H _].
  assert (Hset : db_vars_set env_empty_url).
  { left. exists "". lookup. }
  specialize (H Hset). vm_compute in H. discriminate H.
Qed.

Lemma health_probes_iff_configured_witness :
  ~ db_vars_non_empty env_empty_url /\
  (health py_refuse env_empty_url = ([], Return (base_status py_refuse, 200)) /\
   dom (base_status py_refuse) = {["status"; "timestamp"]} /\
   base_status py_refuse !! "database" = None).
Proof.
  assert (H : ~ db_vars_non_empty env_empty_url).
  { intros [H|[[H|H]|[H|H]]]; revert H; not_non_empty. }
  split; [exact H|].
  exact (proj2 (health_probes_iff_configured py_refuse env_empty_url) H).
Defined.

Lemma health_reports_probe_witness :
  db_vars_non_empty env_url /\
  exists t r body code,
    check_database py_accept env_url = (t, Return r) /\
    health py_accept env_url = (t, Return (body, code)) /\
    (code = 200 /\ body !! "database" = Some "connected" /\
     body !! "database_error" = None <-> r = PTrue) /\
    (forall msg,
       code = 503 /\ body !! "database" = Some "error" /\
       body !! "database_error" = Some msg <-> r = PStr msg) /\
    (is_Some (body !! "database_error") <-> r <> PTrue).
Proof.
  assert (H : db_vars_non_empty env_url).
  { left. exists "postgresql://u:p@db.local/app". split; [lookup|discriminate]. }
  split; [exact H|]. exact (health_reports_probe py_accept env_url H).
Defined.

(** With PORT set to abc, line 6 raises ValueError and app.run is never
    called. *)
Lemma startup_raises_on_bad_port :
  main py_accept env_bad_port =
    ([], Raise (ValueError "invalid literal for int() with base 10: 'abc'")) /\
  ~ starts py_accept env_bad_port.
Proof.
  split; [lookup|]. intros [p H]. vm_compute in H. discriminate H.
Qed.

Lemma requests_never_raise_witness :
  psycopg2_available py_accept = true /\
  db_vars_non_empty env_vars_bad_port /\
  probe_reads_port py_accept env_vars_bad_port "54x2" /\
  int_of_str py_accept "54x2"
    = inr "invalid literal for int() with base 10: '54x2'" /\
  health py_accept env_vars_bad_port =
  ([], Return (<["database_error" :=
                   "invalid literal for int() with base 10: '54x2'"]>
                 (<["database" := "error"]> (base_status py_accept)), 503)).
Proof.
  assert (H1 : psycopg2_available py_accept = true) by reflexivity.
  assert (H2 : db_vars_non_empty env_vars_bad_port).
  { right. left. left. exists "db.local". split; [lookup|discriminate]. }
  assert (H3 : probe_reads_port py_accept env_vars_bad_port "54x2").
  { left. split; lookup. }
  assert (H4 : int_of_str py_accept "54x2"
               = inr "invalid literal for int() with base 10: '54x2'")
    by lookup.
  split; [exact H1|]. split; [exact H2|]. split; [exact H3|].
  split; [exact H4|].
  exact (proj1 (proj2 (proj2 (requests_never_raise py_accept env_vars_bad_port)))
           "54x2" _ H1 H2 H3 H4).
Defined.


(** With DATABASE_URL set to the empty string, DATABASE_PORT not set and
    DB_PORT set to 6000, the probe connects on port 6000, not on 5432. *)
Lemma empty_url_uses_legacy_port :
  trace (check_database py_accept env_empty_url_legacy) =
    [Connect {| host := "legacy.local"; port := 6000; database := "postgres";
                user := "pgadmin"; password := "admin123" |}; Close] /\
  ~ port_falls_back py_accept env_empty_url_legacy.
Proof.
  assert (Ht : trace (check_database py_accept env_empty_url_legacy) =
    [Connect {| host := "legacy.local"; port := 6000; database := "postgres";
                user := "pgadmin"; password := "admin123" |}; Close]) by lookup.
  split; [exact Ht|]. intros H.
  assert (H1 : env_empty_url_legacy !! "DATABASE_URL" = Some "") by lookup.
  assert (H2 : urlparse py_accept "" = inl parsed_empty) by lookup.
  destruct (H "" parsed_empty H1 H2 eq_refl) as [H5432 _].
  assert (H3 : env_empty_url_legacy !! "DATABASE_PORT" = None) by lookup.
  specialize (H5432 H3 _ ltac:(rewrite Ht; left; reflexivity)).
  discriminate H5432.
Qed.

Lemma url_without_port_witness :
  env_url_no_port !! "DATABASE_URL" = Some url_no_port /\
  url_no_port <> "" /\
  urlparse py_accept url_no_port = inl parsed_no_port /\
  url_port parsed_no_port = inl None /\
  env_url_no_port !! "DATABASE_PORT" = Some "6543" /\
  int_of_str py_accept "6543" = inl 6543 /\
  connects_on_port py_accept env_url_no_port 6543 /\
  (psycopg2_available py_accept = true ->
   exists a t,
     trace (check_database py_accept env_url_no_port) = Connect a :: t /\
     port a = 6543).
Proof.
  assert (H1 : env_url_no_port !! "DATABASE_URL" = Some url_no_port) by lookup.
  assert (H2 : url_no_port <> "") by discriminate.
  assert (H3 : urlparse py_accept url_no_port = inl parsed_no_port) by lookup.
  assert (H4 : url_port parsed_no_port = inl None) by reflexivity.
  assert (H5 : env_url_no_port !! "DATABASE_PORT" = Some "6543") by lookup.
  assert (H6 : int_of_str py_accept "6543" = inl 6543) by lookup.
  split; [exact H1|]. split; [exact H2|]. split; [exact H3|].
  split; [exact H4|]. split; [exact H5|]. split; [exact H6|].
  exact (proj2 (url_without_port py_accept env_url_no_port url_no_port
                  parsed_no_port H1 H2 H3 H4) "6543" 6543 H5 H6).
Defined.

Lemma discrete_vars_two_tier_witness :
  env_vars !! "DATABASE_URL" = None /\
  psycopg2_available py_accept = true /\
  int py_accept (two_tier Str env_vars "DATABASE_PORT" "DB_PORT" (Int 5432))
    = ret 6000 /\
  exists t,
    trace (check_database py_accept env_vars) =
    Connect
      {| host := two_tier id env_vars "DATABASE_HOST" "DB_HOST" "postgres";
         port := 6000;
         database := two_tier id env_vars "DATABASE_NAME" "DB_NAME" "postgres";
         user := two_tier id env_vars "DATABASE_USER" "DB_USER" "pgadmin";
         password :=
           two_tier id env_vars "DATABASE_PASSWORD" "DB_PASSWORD" "admin123" |}
    :: t.
Proof.
  assert (H1 : env_vars !! "DATABASE_URL" = None) by lookup.
  assert (H2 : psycopg2_available py_accept = true) by reflexivity.
  assert (H3 : int py_accept
                 (two_tier Str env_vars "DATABASE_PORT" "DB_PORT" (Int 5432))
               = ret 6000) by lookup.
  split; [exact H1|]. split; [exact H2|]. split; [exact H3|].
  exact (proj2 (discrete_vars_two_tier py_accept env_vars H1) H2 6000 H3).
Defined.


Lemma probe_outcomes_witness :
  psycopg2_available py_accept = true /\
  resolve py_accept env_url = inl args_url /\
  psycopg2_connect py_accept args_url = None /\
  check_database py_accept env_url = ([Connect args_url; Close], Return PTrue).
Proof.
  assert (H1 : psycopg2_available py_accept = true) by reflexivity.
  assert (H2 : resolve py_accept env_url = inl args_url) by lookup.
  assert (H3 : psycopg2_connect py_accept args_url = None) by reflexivity.
  split; [exact H1|]. split; [exact H2|]. split; [exact H3|].
  exact (proj1 (proj1 (proj2 (proj2 (proj2 (probe_outcomes py_accept env_url))))
                  H1 args_url H2) H3).
Defined.

Lemma slash_path_empty_database_witness :
  empty_url_empty_path py_accept /\
  env_url_slash !! "DATABASE_URL" = Some url_slash /\
  urlparse py_accept url_slash = inl parsed_slash /\
  url_path parsed_slash = "/" /\
  psycopg2_available py_accept = true /\
  port_or_env py_accept env_url_slash parsed_slash = ret 5433 /\
  exists a t,
    trace (check_database py_accept env_url_slash) = Connect a :: t /\
    database a = "".
Proof.
  assert (H0 : empty_url_empty_path py_accept)
    by exact (reference_empty_url true accept).
  assert (H1 : env_url_slash !! "DATABASE_URL" = Some url_slash) by lookup.
  assert (H2 : urlparse py_accept url_slash = inl parsed_slash) by lookup.
  assert (H3 : url_path parsed_slash = "/") by reflexivity.
  assert (H4 : psycopg2_available py_accept = true) by reflexivity.
  assert (H5 : port_or_env py_accept env_url_slash parsed_slash = ret 5433)
    by lookup.
  split; [exact H0|]. split; [exact H1|]. split; [exact H2|].
  split; [exact H3|]. split; [exact H4|]. split; [exact H5|].
  exact (proj2 (proj1 (slash_path_empty_database py_accept env_url_slash
                         url_slash parsed_slash H0 H1 H2) H3) H4 5433 H5).
Defined.

(** ** Further properties of the probe *)

Lemma non_empty_url_configured env url :
  env !! "DATABASE_URL" = Some url -> url <> "" -> db_vars_non_empty env.
Proof. intros H Hne. left. exists url. auto. Qed.

(** What [health] answers when the probe fails with the text [m] before or
    at the driver. *)
Lemma health_probe_failed py env t m :
  db_vars_non_empty env ->
  check_database py env = (t, Return (PStr m)) ->
  health py env = (t, Return (error_status py m, 503)).
Proof.
  intros Hc Hr. rewrite (health_configured py env Hc).
  apply (health_with_probe_run _ _ _ _ Hr).
Qed.

(** X1: a URL whose port is 0 is treated like a URL without a port: the probe
    connects on 5432 if DATABASE_PORT is not set, and on int(DATABASE_PORT)
    if it is set and int() accepts it. The 0 of the URL is not used as such:
    the port is whatever the fall-back gives. *)
Theorem url_port_zero_falls_back py env url parsed :
  env !! "DATABASE_URL" = Some url -> url <> "" ->
  urlparse py url = inl parsed ->
  url_port parsed = inl (Some 0) ->
  (env !! "DATABASE_PORT" = None ->
   connects_on_port py env 5432 /\
   (psycopg2_available py = true ->
    exists a t, trace (check_database py env) = Connect a :: t /\
                port a = 5432)) /\
  (forall s n,
     env !! "DATABASE_PORT" = Some s -> int_of_str py s = inl n ->
     connects_on_port py env n /\
     (psycopg2_available py = true ->
      exists a t, trace (check_database py env) = Connect a :: t /\
                  port a = n)).
Proof.
  intros Hu Hne Hparse Hport.
  pose proof (port_or_env_absent py env parsed (or_intror Hport)) as Hp.
  unfold one_tier in Hp. split.
  - intros Hnone. rewrite Hnone in Hp.
    exact (url_port_used py env url parsed 5432 Hu Hne Hparse Hp).
  - intros s n Hs Hint. rewrite Hs in Hp. simpl in Hp. rewrite Hint in Hp.
    exact (url_port_used py env url parsed n Hu Hne Hparse Hp).
Qed.

Lemma url_port_zero_falls_back_witness :
  env_url_port0 !! "DATABASE_URL" = Some url_port0 /\
  url_port0 <> "" /\
  urlparse py_accept url_port0 = inl parsed_port0 /\
  url_port parsed_port0 = inl (Some 0) /\
  env_url_port0 !! "DATABASE_PORT" = Some "6543" /\
  int_of_str py_accept "6543" = inl 6543 /\
  connects_on_port py_accept env_url_port0 6543 /\
  (psycopg2_available py_accept = true ->
   exists a t,
     trace (check_database py_accept env_url_port0) = Connect a :: t /\
     port a = 6543).
Proof.
  assert (H1 : env_url_port0 !! "DATABASE_URL" = Some url_port0) by lookup.
  assert (H2 : url_port0 <> "") by discriminate.
  assert (H3 : urlparse py_accept url_port0 = inl parsed_port0) by lookup.
  assert (H4 : url_port parsed_port0 = inl (Some 0)) by reflexivity.
  assert (H5 : env_url_port0 !! "DATABASE_PORT" = Some "6543") by lookup.
  assert (H6 : int_of_str py_accept "6543" = inl 6543) by lookup.
  split; [exact H1|]. split; [exact H2|]. split; [exact H3|].
  split; [exact H4|]. split; [exact H5|]. split; [exact H6|].
  exact (proj2 (url_port_zero_falls_back py_accept env_url_port0 url_port0
                  parsed_port0 H1 H2 H3 H4) "6543" 6543 H5 H6).
Defined.

(** X2: a URL with a port other than 0 decides the port: DATABASE_PORT is
    not read, so whatever it holds, malformed or not, the probe connects on
    the port of the URL. *)
Theorem url_port_wins py env url parsed n :
  env !! "DATABASE_URL" = Some url -> url <> "" ->
  urlparse py url = inl parsed ->
  url_port parsed = inl (Some n) -> n <> 0 ->
  connects_on_port py env n /\
  (psycopg2_available py = true ->
   exists a t, trace (check_database py env) = Connect a :: t /\ port a = n).
Proof.
  intros Hu Hne Hparse Hport Hn.
  apply (url_port_used py env url parsed n Hu Hne Hparse).
  unfold port_or_env, get_port. rewrite Hport, bind_ret.
  destruct (Z.eqb_spec n 0); [contradiction | reflexivity].
Qed.

Lemma url_port_wins_witness :
  env_url_full !! "DATABASE_URL" = Some url_full /\
  url_full <> "" /\
  urlparse py_accept url_full = inl parsed_full /\
  url_port parsed_full = inl (Some 5433) /\
  5433 <> 0 /\
  env_url_full !! "DATABASE_PORT" = Some "54x2" /\
  connects_on_port py_accept env_url_full 5433 /\
  (psycopg2_available py_accept = true ->
   exists a t,
     trace (check_database py_accept env_url_full) = Connect a :: t /\
     port a = 5433).
Proof.
  assert (H1 : env_url_full !! "DATABASE_URL" = Some url_full) by lookup.
  assert (H2 : url_full <> "") by discriminate.
  assert (H3 : urlparse py_accept url_full = inl parsed_full) by lookup.
  assert (H4 : url_port parsed_full = inl (Some 5433)) by reflexivity.
  assert (H5 : 5433 <> 0) by discriminate.
  assert (H6 : env_url_full !! "DATABASE_PORT" = Some "54x2") by lookup.
  split; [exact H1|]. split; [exact H2|]. split; [exact H3|].
  split; [exact H4|]. split; [exact H5|]. split; [exact H6|].
  exact (url_port_wins py_accept env_url_full url_full parsed_full 5433
           H1 H2 H3 H4 H5).
Defined.

(** X3: in the URL branch an empty user name or password is treated like a
    missing one: the probe takes DATABASE_USER, else pgadmin, and
    DATABASE_PASSWORD, else admin123. *)
Theorem blank_credentials_fall_back py env url parsed a :
  env !! "DATABASE_URL" = Some url -> url <> "" ->
  urlparse py url = inl parsed ->
  In (Connect a) (trace (check_database py env)) ->
  (url_username parsed = Some "" ->
   user a = one_tier id env "DATABASE_USER" "pgadmin") /\
  (url_password parsed = Some "" ->
   password a = one_tier id env "DATABASE_PASSWORD" "admin123").
Proof.
  intros Hu Hne Hparse Ha.
  pose proof (open_connection_url py env url Hu Hne) as Ho.
  destruct (port_or_env_cases py env parsed) as [[p Hp]|[m Hm]].
  - rewrite (connect_url_run py env url parsed p Hparse Hp) in Ho.
    destruct (probe_trace py env _ Ho) as [Hall _].
    rewrite (Hall a Ha). simpl. split; intros ->; reflexivity.
  - rewrite (connect_url_invalid py env url parsed m Hparse Hm) in Ho.
    rewrite (probe_invalid_trace py env m Ho) in Ha. destruct Ha.
Qed.

Lemma blank_credentials_fall_back_witness :
  env_url_blank !! "DATABASE_URL" = Some url_blank /\
  url_blank <> "" /\
  urlparse py_accept url_blank = inl parsed_blank /\
  In (Connect args_blank) (trace (check_database py_accept env_url_blank)) /\
  url_username parsed_blank = Some "" /\
  url_password parsed_blank = Some "" /\
  user args_blank = one_tier id env_url_blank "DATABASE_USER" "pgadmin" /\
  password args_blank =
    one_tier id env_url_blank "DATABASE_PASSWORD" "admin123".
Proof.
  assert (H1 : env_url_blank !! "DATABASE_URL" = Some url_blank) by lookup.
  assert (H2 : url_blank <> "") by discriminate.
  assert (H3 : urlparse py_accept url_blank = inl parsed_blank) by lookup.
  assert (H4 : In (Connect args_blank)
                 (trace (check_database py_accept env_url_blank))).
  { left. lookup. }
  split; [exact H1|]. split; [exact H2|]. split; [exact H3|].
  split; [exact H4|]. split; [reflexivity|]. split; [reflexivity|].
  pose proof (blank_credentials_fall_back py_accept env_url_blank url_blank
                parsed_blank args_blank H1 H2 H3 H4) as [Hu Hp].
  split; [exact (Hu eq_refl) | exact (Hp eq_refl)].
Defined.

(** X4: a URL that has every component (a host, a port other than 0, a
    non-empty path, a non-empty user and password) decides the connection
    alone: whatever the discrete variables hold, the probe opens exactly the
    connection the URL describes, the database being the path without its
    first character. *)
Theorem complete_url_decides py env url parsed h n c d u pw :
  env !! "DATABASE_URL" = Some url -> url <> "" ->
  urlparse py url = inl parsed ->
  url_hostname parsed = Some h -> h <> "" ->
  url_port parsed = inl (Some n) -> n <> 0 ->
  url_path parsed = String c d ->
  url_username parsed = Some u -> u <> "" ->
  url_password parsed = Some pw -> pw <> "" ->
  psycopg2_available py = true ->
  check_database py env =
  match psycopg2_connect py {| host := h; port := n; database := d;
                               user := u; password := pw |} with
  | None => ([Connect {| host := h; port := n; database := d;
                         user := u; password := pw |}; Close], Return PTrue)
  | Some m => ([Connect {| host := h; port := n; database := d;
                           user := u; password := pw |}], Return (PStr m))
  end.
Proof.
  intros Hu Hne Hparse Hh Hh' Hport Hn Hpath Hus Hus' Hpw Hpw' Hav.
  assert (Hp : port_or_env py env parsed = ret n).
  { unfold port_or_env, get_port. rewrite Hport, bind_ret.
    destruct (Z.eqb_spec n 0); [contradiction | reflexivity]. }
  rewrite check_database_unfold, Hav, (open_connection_url py env url Hu Hne).
  rewrite (connect_url_run py env url parsed n Hparse Hp).
  rewrite Hh, Hpath, Hus, Hpw. simpl.
  destruct (String.eqb_spec h ""); [contradiction|].
  destruct (String.eqb_spec u ""); [contradiction|].
  destruct (String.eqb_spec pw ""); [contradiction|].
  unfold connect, bind, emit.
  destruct (psycopg2_connect py _); reflexivity.
Qed.

Lemma complete_url_decides_witness :
  env_url_full !! "DATABASE_URL" = Some url_full /\
  url_full <> "" /\
  urlparse py_refuse url_full = inl parsed_full /\
  url_hostname parsed_full = Some "db.local" /\
  url_port parsed_full = inl (Some 5433) /\
  url_path parsed_full = "/app" /\
  url_username parsed_full = Some "u" /\
  url_password parsed_full = Some "p" /\
  psycopg2_available py_refuse = true /\
  env_url_full !! "DATABASE_HOST" = Some "other.local" /\
  check_database py_refuse env_url_full =
  match psycopg2_connect py_refuse args_full with
  | None => ([Connect args_full; Close], Return PTrue)
  | Some m => ([Connect args_full], Return (PStr m))
  end.
Proof.
  assert (H1 : env_url_full !! "DATABASE_URL" = Some url_full) by lookup.
  assert (H2 : urlparse py_refuse url_full = inl parsed_full) by lookup.
  split; [exact H1|]. split; [discriminate|]. split; [exact H2|].
  do 6 (split; [reflexivity|]). split; [lookup|].
  refine (complete_url_decides py_refuse env_url_full url_full parsed_full
            "db.local" 5433 "/" "app" "u" "p" H1 _ H2 eq_refl _ eq_refl _
            eq_refl eq_refl _ eq_refl _ eq_refl); discriminate.
Defined.

(** X5: a non-empty DATABASE_URL that urlparse rejects, or whose port
    attribute raises (not a number, or above 65535), makes the probe return
    the text of that ValueError without calling the driver, and /health
    answer 503 with that text; DATABASE_PORT is not tried instead. *)
Theorem invalid_url_is_probe_failure py env url m :
  env !! "DATABASE_URL" = Some url -> url <> "" ->
  psycopg2_available py = true ->
  (urlparse py url = inr m \/
   exists parsed, urlparse py url = inl parsed /\ url_port parsed = inr m) ->
  check_database py env = ([], Return (PStr m)) /\
  health py env = ([], Return (error_status py m, 503)).
Proof.
  intros Hu Hne Hav Hbad.
  assert (Hr : check_database py env = ([], Return (PStr m))).
  { apply (probe_invalid py env m Hav).
    rewrite (open_connection_url py env url Hu Hne).
    destruct Hbad as [Hparse|(parsed & Hparse & Hport)].
    - unfold connect_url, parse. rewrite Hparse. reflexivity.
    - apply (connect_url_invalid py env url parsed m Hparse).
      unfold port_or_env, get_port. rewrite Hport. reflexivity. }
  split; [exact Hr|].
  exact (health_probe_failed py env [] m
           (non_empty_url_configured env url Hu Hne) Hr).
Qed.

Lemma invalid_url_is_probe_failure_witness :
  env_url_big_port !! "DATABASE_URL" = Some url_big_port /\
  url_big_port <> "" /\
  psycopg2_available py_accept = true /\
  (urlparse py_accept url_big_port = inl parsed_big_port /\
   url_port parsed_big_port = inr "Port out of range 0-65535") /\
  check_database py_accept env_url_big_port =
    ([], Return (PStr "Port out of range 0-65535")) /\
  health py_accept env_url_big_port =
    ([], Return (error_status py_accept "Port out of range 0-65535", 503)).
Proof.
  assert (H1 : env_url_big_port !! "DATABASE_URL" = Some url_big_port)
    by lookup.
  assert (H2 : url_big_port <> "") by discriminate.
  assert (H3 : psycopg2_available py_accept = true) by reflexivity.
  assert (H4 : urlparse py_accept url_big_port = inl parsed_big_port /\
               url_port parsed_big_port = inr "Port out of range 0-65535").
  { split; [lookup | reflexivity]. }
  split; [exact H1|]. split; [exact H2|]. split; [exact H3|].
  split; [exact H4|].
  exact (invalid_url_is_probe_failure py_accept env_url_big_port url_big_port
           "Port out of range 0-65535" H1 H2 H3
           (or_intror (ex_intro _ parsed_big_port H4))).
Defined.

(** X6: without the driver the probe reports the fixed text before reading
    any connection parameter, so nothing else is ever reported: /health
    answers 503 with psycopg2 not installed whenever a database is
    configured, however malformed the configuration, and still answers the
    plain 200 when none is configured. No call leaves the process. *)
Theorem missing_driver_reported py env :
  psycopg2_available py = false ->
  check_database py env = ([], Return (PStr "psycopg2 not installed")) /\
  (db_vars_non_empty env ->
   health py env =
   ([], Return (error_status py "psycopg2 not installed", 503))) /\
  (~ db_vars_non_empty env ->
   health py env = ([], Return (base_status py, 200))).
Proof.
  intros Hav.
  assert (Hr : check_database py env
               = ([], Return (PStr "psycopg2 not installed"))).
  { rewrite check_database_unfold, Hav. reflexivity. }
  split; [exact Hr|]. split.
  - intros Hc. exact (health_probe_failed py env [] _ Hc Hr).
  - apply health_unconfigured.
Qed.

Lemma missing_driver_reported_witness :
  psycopg2_available py_no_driver = false /\
  db_vars_non_empty env_vars_bad_port /\
  health py_no_driver env_vars_bad_port =
  ([], Return (error_status py_no_driver "psycopg2 not installed", 503)).
Proof.
  assert (H1 : psycopg2_available py_no_driver = false) by reflexivity.
  assert (H2 : db_vars_non_empty env_vars_bad_port).
  { right. left. left. exists "db.local". split; [lookup|discriminate]. }
  split; [exact H1|]. split; [exact H2|].
  exact (proj1 (proj2 (missing_driver_reported py_no_driver env_vars_bad_port
                         H1)) H2).
Defined.

(** ** What the handlers read and leave behind *)

Lemma resolve_same py py' env env' :
  same_platform py py' -> same_on db_names env env' ->
  resolve py env = resolve py' env'.
Proof.
  intros (_ & _ & Hint & Hurl & _) H.
  assert (Hv : forall v, int_value py v = int_value py' v).
  { intros [s|n]; [apply Hint | reflexivity]. }
  unfold resolve, resolve_vars, resolve_url, resolve_port, two_tier, one_tier.
  rewrite (H "DATABASE_URL"), (H "DATABASE_HOST"), (H "DB_HOST"),
    (H "DATABASE_PORT"), (H "DB_PORT"), (H "DATABASE_NAME"), (H "DB_NAME"),
    (H "DATABASE_USER"), (H "DB_USER"), (H "DATABASE_PASSWORD"),
    (H "DB_PASSWORD") by (simpl; tauto).
  destruct (env' !! "DATABASE_URL") as [url|]; [|rewrite Hv; reflexivity].
  destruct (String.eqb url ""); [rewrite Hv; reflexivity|].
  rewrite Hurl. destruct (urlparse py' url) as [parsed|m]; [|reflexivity].
  destruct (url_port parsed) as [[n|]|m]; [| |reflexivity].
  - destruct (n =? 0); [rewrite Hv|]; reflexivity.
  - rewrite Hv. reflexivity.
Qed.

Lemma check_database_same_platform py py' env env' :
  same_platform py py' -> same_on db_names env env' ->
  check_database py env = check_database py' env'.
Proof.
  intros Hpy H. rewrite !check_database_unfold, !open_connection_resolve.
  rewrite (resolve_same py py' env env' Hpy H).
  destruct Hpy as (Hav & Hconn & _). rewrite Hav.
  destruct (resolve py' env') as [a|m]; [|reflexivity].
  unfold connect. rewrite Hconn. reflexivity.
Qed.

(** X7: in os.environ the probe and /health look up eleven names and no
    other (DATABASE_URL, the five DATABASE_* names and the five DB_* names):
    two runs whose environments agree on these, on platforms that behave the
    same, make the same calls and give the same response, whatever PORT or
    any other variable the program could have looked up holds. What the
    interpreter or the driver library read from the environment by
    themselves is behaviour of the platform. *)
Theorem health_reads_only_db_vars py py' env env' :
  same_platform py py' ->
  same_on db_names env env' ->
  check_database py env = check_database py' env' /\
  health py env = health py' env'.
Proof.
  intros Hpy H. pose proof (check_database_same_platform py py' env env' Hpy H)
    as Hdb.
  split; [exact Hdb|].
  rewrite !health_unfold. unfold health_with_probe, health_without_probe.
  rewrite Hdb.
  rewrite (H "DATABASE_URL"), (H "DATABASE_HOST"), (H "DB_HOST"),
    (H "DATABASE_NAME"), (H "DB_NAME") by (simpl; tauto).
  destruct Hpy as (_ & _ & _ & _ & Hclock). unfold base_status.
  rewrite Hclock. reflexivity.
Qed.

Lemma same_on_url_and_more : same_on db_names env_url_and_more env_url.
Proof.
  intros k Hk. unfold env_url_and_more.
  rewrite !lookup_insert_ne; [reflexivity| |]; intros <-;
    simpl in Hk; intuition discriminate.
Qed.

Lemma same_platform_refl py : same_platform py py.
Proof. repeat split. Qed.

Lemma health_reads_only_db_vars_witness :
  same_platform py_accept py_accept /\
  same_on db_names env_url_and_more env_url /\
  env_url_and_more !! "PORT" = Some "8080" /\
  env_url !! "PORT" = None /\
  check_database py_accept env_url_and_more = check_database py_accept env_url /\
  health py_accept env_url_and_more = health py_accept env_url.
Proof.
  split; [exact (same_platform_refl py_accept)|].
  split; [exact same_on_url_and_more|]. split; [lookup|]. split; [lookup|].
  exact (health_reads_only_db_vars py_accept py_accept env_url_and_more env_url
           (same_platform_refl py_accept) same_on_url_and_more).
Defined.

Lemma base_status_timestamp py :
  base_status py !! "timestamp" = Some (utcnow_isoformat py ++ "Z").
Proof. apply base_status_lookup. Qed.

Lemma connected_status_dom py :
  dom (connected_status py) = {["status"; "timestamp"; "database"]}.
Proof.
  unfold connected_status. rewrite dom_insert_L, base_status_dom. set_solver.
Qed.

Lemma error_status_dom py m :
  dom (error_status py m) =
  {["status"; "timestamp"; "database"; "database_error"]}.
Proof.
  unfold error_status. rewrite !dom_insert_L, base_status_dom. set_solver.
Qed.

(** What [health] answers, from what the probe returns, when a database is
    configured or not. *)
Lemma health_cases py env :
  health py env = ([], Return (base_status py, 200)) \/
  (exists t, check_database py env = (t, Return PTrue) /\
             health py env = (t, Return (connected_status py, 200))) \/
  (exists t m, check_database py env = (t, Return (PStr m)) /\
               health py env = (t, Return (error_status py m, 503))).
Proof.
  rewrite health_unfold. destruct (truthy _); [|left; reflexivity].
  right. destruct (check_database_returns py env) as (t & r & Hr).
  rewrite (health_with_probe_run _ _ _ _ Hr). destruct r as [|m].
  - left. exists t. auto.
  - right. exists t, m. auto.
Qed.

(** X8: every response to GET /health carries the clock's text followed by Z
    in timestamp, and its body has exactly one of three sets of fields:
    status and timestamp with code 200; these and database with code 200;
    these and database_error with code 503. No other field is ever put in
    the body. *)
Theorem health_body_fields py env :
  exists t body code,
    health py env = (t, Return (body, code)) /\
    body !! "timestamp" = Some (utcnow_isoformat py ++ "Z") /\
    ((dom body = {["status"; "timestamp"]} /\ code = 200) \/
     (dom body = {["status"; "timestamp"; "database"]} /\ code = 200) \/
     (dom body = {["status"; "timestamp"; "database"; "database_error"]} /\
      code = 503)).
Proof.
  destruct (health_cases py env) as [H|[(t & _ & H)|(t & m & _ & H)]];
    rewrite H; eexists _, _, _; (split; [reflexivity|]).
  - split; [apply base_status_timestamp|]. left.
    split; [apply base_status_dom | reflexivity].
  - split.
    + unfold connected_status. rewrite lookup_insert_ne by discriminate.
      apply base_status_timestamp.
    + right. left. split; [apply connected_status_dom | reflexivity].
  - split.
    + unfold error_status. rewrite !lookup_insert_ne by discriminate.
      apply base_status_timestamp.
    + right. right. split; [apply error_status_dom | reflexivity].
Qed.

(** X9: GET /health leaves no connection open and closes nothing it did not
    open. Its calls are none at all, or one connection that the driver
    returned followed at once by its close (and then the answer is 200,
    connected), or one connection that the driver refused and no close (and
    then the answer is 503 with the driver's text). *)
Theorem health_closes_what_it_opens py env :
  exists t body code,
    health py env = (t, Return (body, code)) /\
    (t = [] \/
     (exists a,
        t = [Connect a; Close] /\ psycopg2_connect py a = None /\
        body = connected_status py /\ code = 200) \/
     (exists a m,
        t = [Connect a] /\ psycopg2_connect py a = Some m /\
        body = error_status py m /\ code = 503)).
Proof.
  destruct (health_cases py env) as [H|[(t & Hr & H)|(t & m & Hr & H)]];
    rewrite H; eexists _, _, _; (split; [reflexivity|]).
  - left. reflexivity.
  - rewrite check_database_unfold in Hr.
    destruct (psycopg2_available py); [|discriminate].
    destruct (open_connection_attempt py env (env !! "DATABASE_URL"))
      as [m | a Ha | a m Ha]; try discriminate.
    injection Hr as <-. right. left. exists a. auto.
  - rewrite check_database_unfold in Hr.
    destruct (psycopg2_available py); [|injection Hr as <- _; auto].
    destruct (open_connection_attempt py env (env !! "DATABASE_URL"))
      as [m' | a Ha | a m' Ha]; try discriminate.
    + injection Hr as <- _. auto.
    + injection Hr as <- <-. right. right. exists a, m'. auto.
Qed.

Lemma health_trace py env :
  trace (health py env) = [] \/
  trace (health py env) = trace (check_database py env).
Proof.
  destruct (health_cases py env) as [H|[(t & Hr & H)|(t & m & Hr & H)]];
    rewrite H; [left; reflexivity | right; rewrite Hr; reflexivity ..].
Qed.

(** The host of the branch without a URL. *)
Lemma vars_host py env a :
  truthy (env !! "DATABASE_URL") = false ->
  In (Connect a) (trace (check_database py env)) ->
  host a = two_tier id env "DATABASE_HOST" "DB_HOST" "postgres".
Proof.
  intros Hu Ha. pose proof (open_connection_vars py env Hu) as Ho.
  rewrite connect_vars_run in Ho.
  destruct (int_cases py (two_tier Str env "DATABASE_PORT" "DB_PORT" (Int 5432)))
    as [[p Hp]|[m Hm]].
  - rewrite Hp, bind_ret in Ho.
    destruct (probe_trace py env _ Ho) as [Hall _].
    rewrite (Hall a Ha). reflexivity.
  - rewrite Hm in Ho. simpl in Ho.
    rewrite (probe_invalid_trace py env m Ho) in Ha. destruct Ha.
Qed.

(** X10: detection and resolution disagree on an empty primary name. With
    DATABASE_URL not set or empty, DATABASE_HOST set to the empty string and DB_HOST
    set to a non-empty one, /health invokes the probe (line 55 passes over
    the empty value to DB_HOST) but every connection it opens has the empty
    host (line 31 takes DATABASE_HOST because it is set). *)
Theorem blank_primary_host_shadows_legacy py env legacy :
  truthy (env !! "DATABASE_URL") = false ->
  env !! "DATABASE_HOST" = Some "" ->
  env !! "DB_HOST" = Some legacy -> legacy <> "" ->
  health py env = health_with_probe py env /\
  forall a, In (Connect a) (trace (health py env)) -> host a = "".
Proof.
  intros Hu Hh Hl Hne. split.
  - apply health_configured. right. left. right. exists legacy. auto.
  - intros a Ha.
    destruct (health_trace py env) as [Ht|Ht]; rewrite Ht in Ha;
      [destruct Ha|].
    rewrite (vars_host py env a Hu Ha). unfold two_tier. rewrite Hh.
    reflexivity.
Qed.

Lemma blank_primary_host_shadows_legacy_witness :
  truthy (env_blank_host !! "DATABASE_URL") = false /\
  env_blank_host !! "DATABASE_HOST" = Some "" /\
  env_blank_host !! "DB_HOST" = Some "legacy.local" /\
  "legacy.local" <> "" /\
  health py_accept env_blank_host = health_with_probe py_accept env_blank_host /\
  forall a, In (Connect a) (trace (health py_accept env_blank_host)) ->
            host a = "".
Proof.
  assert (H1 : truthy (env_blank_host !! "DATABASE_URL") = false) by lookup.
  assert (H2 : env_blank_host !! "DATABASE_HOST" = Some "") by lookup.
  assert (H3 : env_blank_host !! "DB_HOST" = Some "legacy.local") by lookup.
  assert (H4 : "legacy.local" <> "") by discriminate.
  split; [exact H1|]. split; [exact H2|]. split; [exact H3|].
  split; [exact H4|].
  exact (blank_primary_host_shadows_legacy py_accept env_blank_host
           "legacy.local" H1 H2 H3 H4).
Defined.

Lemma connect_vars_delete_url py env :
  connect_vars py (delete "DATABASE_URL" env) = connect_vars py env.
Proof.
  unfold connect_vars, environ_get, environ_get_any.
  rewrite !lookup_delete_ne by discriminate. reflexivity.
Qed.

(** X11: a DATABASE_URL set to the empty string behaves exactly like one
    that is not set: the probe and /health make the same calls and give the
    same answer as in the environment without the variable. *)
Theorem empty_url_like_unset py env :
  env !! "DATABASE_URL" = Some "" ->
  check_database py env = check_database py (delete "DATABASE_URL" env) /\
  health py env = health py (delete "DATABASE_URL" env).
Proof.
  intros Hu.
  assert (Hdb : check_database py env
                = check_database py (delete "DATABASE_URL" env)).
  { rewrite !check_database_unfold.
    rewrite (open_connection_vars py env) by (rewrite Hu; reflexivity).
    rewrite (open_connection_vars py (delete "DATABASE_URL" env))
      by (rewrite lookup_delete_eq; reflexivity).
    rewrite connect_vars_delete_url. reflexivity. }
  split; [exact Hdb|].
  rewrite !health_unfold. unfold health_with_probe. rewrite <- Hdb.
  rewrite lookup_delete_eq, !lookup_delete_ne by discriminate.
  rewrite Hu. reflexivity.
Qed.

Lemma empty_url_like_unset_witness :
  env_empty_url_legacy !! "DATABASE_URL" = Some "" /\
  check_database py_accept env_empty_url_legacy =
    check_database py_accept (delete "DATABASE_URL" env_empty_url_legacy) /\
  health py_accept env_empty_url_legacy =
    health py_accept (delete "DATABASE_URL" env_empty_url_legacy).
Proof.
  assert (H1 : env_empty_url_legacy !! "DATABASE_URL" = Some "") by lookup.
  split; [exact H1|].
  exact (empty_url_like_unset py_accept env_empty_url_legacy H1).
Defined.
